(** * ExportService: a shallow embedding of the dashboard export pipeline

    The development follows [frontend/src/services/ExportService.ts]:
    the orchestrator [exportDashboard], the four renderers [exportAsImage],
    [exportAsPDF], [exportAsPowerPoint], [exportAsHTML] and the markup
    generator [generateHTMLCode].

    Modelling conventions.
    - A JavaScript [number] is an IEEE-754 binary64 number, the kernel's
      [float]: positions, sizes, data points and every geometry the
      renderers compute from them are rounded as the code rounds them.  The
      layout of the PDF page, a closed computation, is written on rationals
      and replayed on binary64 in [Module Binary64], where it gives the same
      four numbers.
    - A JavaScript string is a [string] whose characters are the code units
      U+0000..U+00FF (Latin-1); strings with code units above U+00FF are
      outside the model.
    - An optional property is an [option]; [None] is [undefined].
    - [async]/[await] is sequencing; a rejected promise is a thrown value.
      Fallible code lives in the [Result] monad, [try]/[catch] is
      [try_catch].  A thrown value is either one whose [message] can be
      read as text ([Throw]) or one on which that read itself throws
      ([ThrowUnreadable]), as it does on [null] and [undefined].
    - The browser and the three libraries (fabric, jsPDF, PptxGenJS) are
      external: the calls into them are the fields of [Host] and [Canvas]. *)

From Stdlib Require Import QArith Lqa ZArith Lia Bool List String Ascii DecimalString.
From Stdlib Require Import Floats.PrimFloat Floats.SpecFloat Floats.FloatOps.
Import ListNotations.

Set Warnings "-inexact-float".

Local Open Scope float_scope.
Local Open Scope string_scope.

(** ** Errors and results *)

(** A thrown value other than [null] and [undefined].  The service reads
    nothing of it but [error.message] inside a template literal: [message]
    is the text that read gives, the message of an [Error] object (and the
    text undefined for a value that has no such property).  [Error] is
    [new Error(message)]. *)
Record JsError : Type := Error { message : string }.

(** What can be thrown, and what a [catch] clause binds: a value whose
    message reads as text, or a value on which evaluating
    [`${error.message}`] throws [raised] in its turn. *)
Inductive Thrown : Type :=
| readable (e : JsError)
| unreadable (raised : Thrown).

(** The two values no property can be read from. *)
Inductive Nullish : Type := null | undefined.

(** The [TypeError] of reading [property] of [null] or [undefined], in the
    words of V8. *)
Definition readOfNullish (v : Nullish) (property : string) : JsError :=
  Error ("Cannot read properties of "
         ++ match v with null => "null" | undefined => "undefined" end
         ++ " (reading '" ++ property ++ "')").


Inductive Result (A : Type) : Type :=
| Ok (a : A)
| Throw (e : JsError)
| ThrowUnreadable (raised : Thrown).
Arguments Ok {A} a.
Arguments Throw {A} e.
Arguments ThrowUnreadable {A} raised.

(** [throw thrown] *)
Definition throw {A : Type} (thrown : Thrown) : Result A :=
  match thrown with
  | readable e => Throw e
  | unreadable raised => ThrowUnreadable raised
  end.

Definition bind {A B : Type} (m : Result A) (k : A -> Result B) : Result B :=
  match m with
  | Ok a => k a
  | Throw e => Throw e
  | ThrowUnreadable raised => ThrowUnreadable raised
  end.

Notation "x <- m ;; k" := (bind m (fun x => k))
  (at level 61, m at next level, right associativity).
Notation "m ;;; k" := (bind m (fun _ => k))
  (at level 61, right associativity).

(** [try { body } catch (error) { handler error }] *)
Definition try_catch {A : Type} (body : Result A) (handler : Thrown -> Result A)
  : Result A :=
  match body with
  | Ok a => Ok a
  | Throw e => handler (readable e)
  | ThrowUnreadable raised => handler (unreadable raised)
  end.

(** ** Numbers *)

(** The exact value of a binary64 number, as a rational; 0 stands for the
    values that have none (NaN and the infinities). *)
Definition exact (f : float) : Q :=
  match Prim2SF f with
  | S754_finite s m e =>
      let v := (inject_Z (Zpos m) * Qpower 2 e)%Q in
      if s then (- v)%Q else v
  | _ => 0%Q
  end.

(** The number that the whole number [n] is, for [0 <= n < 2^53]. *)
Definition wholeNumber (n : Z) : float := of_uint63 (Uint63Axioms.of_Z n).

(** ** Strings *)

(** The double-quote character, and a string put between two of them. *)
Definition dquote : string := String (ascii_of_nat 34) EmptyString.
Definition quoted (s : string) : string := dquote ++ s ++ dquote.

(** The line feed of a multi-line template literal. *)
Definition LF : string := String (ascii_of_nat 10) EmptyString.

(** [lines.join('\n')] *)
Definition unlines (ls : list string) : string := String.concat LF ls.

(** [Array.prototype.join('')] *)
Definition join (ls : list string) : string := String.concat EmptyString ls.

(** The code units matched by the regular-expression class [\s] below U+0100:
    TAB, LF, VT, FF, CR, SPACE and NO-BREAK SPACE. *)
Definition isWhiteSpace (c : ascii) : bool :=
  let n := nat_of_ascii c in
  ((9 <=? n) && (n <=? 13) || (n =? 32) || (n =? 160))%nat.

(** [String.prototype.toLowerCase] on one code unit below U+0100:
    A-Z, and the Latin-1 capitals U+00C0..U+00DE except the multiplication
    sign U+00D7, move up by 32. *)
Definition toLowerCase_char (c : ascii) : ascii :=
  let n := nat_of_ascii c in
  if ((65 <=? n) && (n <=? 90)
      || (192 <=? n) && (n <=? 222) && negb (n =? 215))%nat
  then ascii_of_nat (n + 32)
  else c.

(** [s.toLowerCase()] *)
Fixpoint toLowerCase (s : string) : string :=
  match s with
  | EmptyString => EmptyString
  | String c s' => String (toLowerCase_char c) (toLowerCase s')
  end.

(** [s.replace(/\s+/g, '_')]: the scan of the global, greedy pattern.
    [inRun] tells that the previous code unit belonged to the match being
    consumed, whose underscore is already written. *)
Fixpoint replaceWhitespace_from (inRun : bool) (s : string) : string :=
  match s with
  | EmptyString => EmptyString
  | String c s' =>
      if isWhiteSpace c
      then if inRun
           then replaceWhitespace_from true s'
           else String "_" (replaceWhitespace_from true s')
      else String c (replaceWhitespace_from false s')
  end.

Definition replaceWhitespace (s : string) : string :=
  replaceWhitespace_from false s.

(** [title.replace(/\s+/g, '_').toLowerCase()] *)
Definition fileStem (title : string) : string :=
  toLowerCase (replaceWhitespace title).

Example fileStem_sales : fileStem "Sales Overview" = "sales_overview".
Proof. reflexivity. Qed.

(** ** Data model ([shared/types/dashboard]) *)

(** Modelled from the spec: the type declarations of [shared/types/dashboard]
    ([DashboardConfig], [ExportFormat], [ExportResponse] and their parts) are
    imported by the service from outside its own file.  The records
    below follow section 3 of the specification and the property accesses of
    the service. *)

Module Position.
Record t : Type := make { x : float; y : float }.
End Position.

Module Size.
Record t : Type := make { width : float; height : float }.
End Size.

(** One dataset of a chart: optional [labels], and the [data] points. *)
Module Dataset.
Record t : Type := make { labels : option (list string); data : list float }.
End Dataset.

(** The value of a KPI tile: a number or a string. *)
Inductive KpiValue : Type :=
| VNumber (n : float)
| VString (s : string).

(** The [data] payload of a component, as the object the service reads:
    [datasets] for a chart, [value] and [unit] for a KPI tile, every property
    possibly [undefined]. *)
Module ComponentData.
Record t : Type := make {
    datasets : option (list Dataset.t);
    value : option KpiValue;
    unit : option string
  }.
End ComponentData.

(** [type] is the tag as it stands at run time: ['chart'], ['kpi'], or any
    other string. *)
Module Component.
Record t : Type := make {
    id : string;
    type : string;
    title : option string;
    position : Position.t;
    size : Size.t;
    data : ComponentData.t
  }.
End Component.

Module Theme.
Record t : Type := make {
    primaryColor : string;
    backgroundColor : string;
    textColor : string;
    fontFamily : string
  }.
End Theme.

Module DashboardConfig.
Record t : Type := make {
    title : string;
    theme : Theme.t;
    components : list Component.t
  }.
End DashboardConfig.

(** The response object.  The service builds it either as
    [{ success: true, downloadUrl, filename }] or as
    [{ success: false, error }]. *)
Module ExportResponse.
Record t : Type := make {
    success : bool;
    downloadUrl : option string;
    filename : option string;
    error : option string
  }.
End ExportResponse.

(** [{ success: true, downloadUrl: url, filename: name }] *)
Definition succeeded (url name : string) : ExportResponse.t :=
  {| ExportResponse.success := true;
     ExportResponse.downloadUrl := Some url;
     ExportResponse.filename := Some name;
     ExportResponse.error := None |}.

(** [{ success: false, error: msg }] *)
Definition failed (msg : string) : ExportResponse.t :=
  {| ExportResponse.success := false;
     ExportResponse.downloadUrl := None;
     ExportResponse.filename := None;
     ExportResponse.error := Some msg |}.

(** ** The libraries' documents, as the calls recorded on them *)

(** The two call shapes of [canvas.toDataURL] used by the service. *)
Inductive ToDataURLArgs : Type :=
| DataURLOptions (format : string) (quality multiplier : float)
| DataURLType (mime : string) (quality : float).

(** The rendering surface ([fabric.Canvas]): reading it may throw. *)
Record Canvas : Type := { toDataURL : ToDataURLArgs -> Result string }.

(** [pdf.addImage(imageData, format, x, y, width, height)].  The four numbers
    come from the page layout and are written as that layout is, on
    rationals. *)
Module AddImage.
Record t : Type := make {
    imageData : string; format : string; x : Q; y : Q; width : Q; height : Q
  }.
End AddImage.

(** A [jsPDF] document: its constructor arguments and the images added. *)
Module JsPDF.
Record t : Type := make {
    orientation : string; unit : string; format : string;
    images : list AddImage.t
  }.
Definition new (orientation unit format : string) : t :=
    make orientation unit format [].
Definition addImage (pdf : t) (img : AddImage.t) : t :=
    make (JsPDF.orientation pdf) (JsPDF.unit pdf) (JsPDF.format pdf)
         (images pdf ++ [img])%list.
End JsPDF.

(** The options object of [slide.addText]. *)
Module TextOptions.
Record t : Type := make {
    x : float; y : float; w : float; h : float;
    fontSize : float; fontFace : string; color : string;
    bold : option bool; align : option string
  }.
End TextOptions.

(** The options object of [slide.addChart]. *)
Module ChartOptions.
Record t : Type := make {
    x : float; y : float; w : float; h : float; title : option string
  }.
End ChartOptions.

(** One series of a chart: [{ name, values }]; a value read past the end of
    [data] is [undefined]. *)
Module Series.
Record t : Type := make { name : string; values : list (option float) }.
End Series.

(** What a slide holds: the [addText] and [addChart] calls, in order. *)
Inductive SlideObject : Type :=
| addText (text : string) (options : TextOptions.t)
| addChart (chartType : string) (series : list Series.t) (options : ChartOptions.t).

Definition Slide : Type := list SlideObject.

(** A [PptxGenJS] presentation: its layout and its slides. *)
Module Pptx.
Record t : Type := make { layout : string; slides : list Slide }.
End Pptx.

(** A [Blob] of bytes. *)
Definition Blob : Type := string.

(** ** The host: browser and library calls the service depends on *)

Record Host : Type := {
  (** [Number::toString], the conversion a template literal applies to a
      number. *)
  NumberToString : float -> string;
  (** The [TypeError] raised when property [p] is read from [undefined]; its
      message is the engine's. *)
  readOfUndefined : string -> JsError;
  (** [encodeURIComponent(s)] *)
  encodeURIComponent : string -> Result string;
  (** [await navigator.clipboard.writeText(s)] *)
  clipboard_writeText : string -> Result unit;
  (** [URL.createObjectURL(blob)] *)
  createObjectURL : Blob -> Result string;
  (** [new jsPDF(orientation, unit, format)]: the constructor may throw. *)
  jsPDF_new : string -> string -> string -> Result unit;
  (** [pdf.addImage(...)] on the document [pdf]: the library checks the
      image and may throw; when it returns the image is part of the
      document. *)
  jsPDF_addImage : JsPDF.t -> AddImage.t -> Result unit;
  (** [pdf.output('blob')] *)
  jsPDF_output : JsPDF.t -> string -> Result Blob;
  (** [await pptx.write('blob')] *)
  pptx_write : Pptx.t -> string -> Result Blob
}.

(** ** Small JavaScript idioms *)

(** Truthiness of an optional string: [undefined] and [''] are falsy. *)
Definition truthy (s : option string) : bool :=
  match s with
  | Some EmptyString => false
  | Some _ => true
  | None => false
  end.

(** [s || ''] *)
Definition orEmpty (s : option string) : string :=
  match s with
  | Some s' => if truthy s then s' else EmptyString
  | None => EmptyString
  end.

(** [array.map((a, i) => f a i)], from index [i] on. *)
Fixpoint mapi_from {A B : Type} (i : nat) (f : A -> nat -> B) (l : list A) : list B :=
  match l with
  | [] => []
  | a :: l' => f a i :: mapi_from (S i) f l'
  end.

Definition mapi {A B : Type} (f : A -> nat -> B) (l : list A) : list B :=
  mapi_from 0 f l.

(** [array.forEach(callback)] for a callback that updates the state [S] and
    may throw: the first throw ends the loop. *)
Fixpoint forEach {A S : Type} (callback : S -> A -> Result S) (l : list A) (s : S)
  : Result S :=
  match l with
  | [] => Ok s
  | a :: l' => s' <- callback s a ;; forEach callback l' s'
  end.

(** ** The PDF page layout (lines 57-72 of the service) *)

Local Open Scope Q_scope.

Module Box.
Record t : Type := make { x : Q; y : Q; imgWidth : Q; imgHeight : Q }.
End Box.

(** A4 landscape dimensions *)
Definition pdfWidth : Q := 297.
Definition pdfHeight : Q := 210.

(** Calculate aspect ratio (16:9) *)
Definition aspectRatio : Q := 16 / 9.

(** The image box of [exportAsPDF], with the page dimensions as arguments;
    the service calls it at [pdfWidth] and [pdfHeight]. *)
Definition imageBox (pdfWidth pdfHeight : Q) : Box.t :=
  let imgWidth := pdfWidth - 20 in
  let imgHeight := imgWidth / aspectRatio in
  let '(imgWidth, imgHeight) :=
    if Qlt_le_dec (pdfHeight - 20) imgHeight
    then let imgHeight := pdfHeight - 20 in
         (imgHeight * aspectRatio, imgHeight)
    else (imgWidth, imgHeight) in
  let x := (pdfWidth - imgWidth) / 2 in
  let y := (pdfHeight - imgHeight) / 2 in
  Box.make x y imgWidth imgHeight.

Local Close Scope Q_scope.

(** The same computation on IEEE-754 binary64 numbers. *)
Module Binary64.
Local Open Scope float_scope.
Definition pdfWidth : float := 297.
Definition pdfHeight : float := 210.
Definition aspectRatio : float := 16 / 9.
Record Box : Type := { x : float; y : float; imgWidth : float; imgHeight : float }.
Definition imageBox (pdfWidth pdfHeight : float) : Box :=
  let imgWidth := pdfWidth - 20 in
  let imgHeight := imgWidth / aspectRatio in
  let '(imgWidth, imgHeight) :=
    if PrimFloat.ltb (pdfHeight - 20) imgHeight
    then let imgHeight := pdfHeight - 20 in
         (imgHeight * aspectRatio, imgHeight)
    else (imgWidth, imgHeight) in
  let x := (pdfWidth - imgWidth) / 2 in
  let y := (pdfHeight - imgHeight) / 2 in
  Build_Box x y imgWidth imgHeight.
End Binary64.

(** ** Geometry of a component *)

(** Percentages of the markup renderer (lines 211-214). *)
Definition leftPercent (component : Component.t) : float :=
  (Position.x (Component.position component) / 800) * 100.
Definition topPercent (component : Component.t) : float :=
  (Position.y (Component.position component) / 450) * 100.
Definition widthPercent (component : Component.t) : float :=
  (Size.width (Component.size component) / 800) * 100.
Definition heightPercent (component : Component.t) : float :=
  (Size.height (Component.size component) / 450) * 100.

(** Slide units of the presentation renderer (lines 103-106). *)
Definition slideX (component : Component.t) : float :=
  (Position.x (Component.position component) / 800) * 10.
Definition slideY (component : Component.t) : float :=
  (Position.y (Component.position component) / 450) * 5.6 + 1.2.
Definition slideW (component : Component.t) : float :=
  (Size.width (Component.size component) / 800) * 10.
Definition slideH (component : Component.t) : float :=
  (Size.height (Component.size component) / 450) * 5.6.

(** ** The service *)

Section ExportService.

Variable host : Host.

(** The text a template literal gives for [component.data.value]. *)
Definition valueToString (v : option KpiValue) : string :=
  match v with
  | Some (VNumber n) => NumberToString host n
  | Some (VString s) => s
  | None => "undefined"
  end.

(** [`${component.data.value} ${component.data.unit || ''}`] *)
Definition kpiText (component : Component.t) : string :=
  valueToString (ComponentData.value (Component.data component))
  ++ " " ++ orEmpty (ComponentData.unit (Component.data component)).

(** *** exportAsImage (lines 39-51) *)
Definition exportAsImage (canvas : Canvas) (format : string)
  : Result ExportResponse.t :=
  dataURL <- toDataURL canvas (DataURLOptions format 0.9 2) ;;
  Ok (succeeded dataURL ("dashboard." ++ format)).

(** *** exportAsPDF (lines 53-84) *)

(** The document on which [pdf.output] is called. *)
Definition pdfDocument (imgData : string) : JsPDF.t :=
  let pdf := JsPDF.new "landscape" "mm" "a4" in
  let box := imageBox pdfWidth pdfHeight in
  JsPDF.addImage pdf
    (AddImage.make imgData "JPEG"
       (Box.x box) (Box.y box) (Box.imgWidth box) (Box.imgHeight box)).

(** The image handed to [pdf.addImage] (line 74). *)
Definition pdfImage (imgData : string) : AddImage.t :=
  let box := imageBox pdfWidth pdfHeight in
  AddImage.make imgData "JPEG"
    (Box.x box) (Box.y box) (Box.imgWidth box) (Box.imgHeight box).

Definition exportAsPDF (canvas : Canvas) (title : string)
  : Result ExportResponse.t :=
  imgData <- toDataURL canvas (DataURLType "image/jpeg" 0.9) ;;
  jsPDF_new host "landscape" "mm" "a4" ;;;
  let pdf := JsPDF.new "landscape" "mm" "a4" in
  jsPDF_addImage host pdf (pdfImage imgData) ;;;
  let pdf := pdfDocument imgData in
  pdfBlob <- jsPDF_output host pdf "blob" ;;
  url <- createObjectURL host pdfBlob ;;
  Ok (succeeded url (fileStem title ++ ".pdf")).

(** *** exportAsPowerPoint (lines 86-148) *)

(** The title box (lines 93-99). *)
Definition titleText (dashboard : DashboardConfig.t) : SlideObject :=
  addText (DashboardConfig.title dashboard)
    (TextOptions.make 0.5 0.3 9 0.8 24 "Arial"
       (Theme.primaryColor (DashboardConfig.theme dashboard))
       (Some true) None).

(** The series of a chart (lines 112-115):
    [chartData.labels?.map((label, i) => ({ name: label,
    values: [chartData.data[i]] })) || []]. *)
Definition chartSeries (chartData : Dataset.t) : list Series.t :=
  match Dataset.labels chartData with
  | Some labels =>
      mapi (fun label i => Series.make label [nth_error (Dataset.data chartData) i])
           labels
  | None => []
  end.

(** The callback of [dashboard.components.forEach] (lines 102-138): the calls
    it makes on the slide, or the error it throws. *)
Definition addComponent (dashboard : DashboardConfig.t)
  (slide : Slide) (component : Component.t) : Result Slide :=
  let x := slideX component in
  let y := slideY component in
  let w := slideW component in
  let h := slideH component in
  match (if Component.type component =? "chart"
         then ComponentData.datasets (Component.data component)
         else None) with
  | Some datasets =>
      (* Add chart data to PowerPoint *)
      let chartData := nth_error datasets 0 in
      series <- match chartData with
                | Some chartData => Ok (chartSeries chartData)
                | None => Throw (readOfUndefined host "labels")
                end ;;
      Ok (slide ++ [addChart "bar" series
                      (ChartOptions.make x y w h (Component.title component))])%list
  | None =>
      if Component.type component =? "kpi"
      then
        (* Add KPI as text box *)
        let slide :=
          (slide ++ [addText (kpiText component)
                       (TextOptions.make x y w h 18 "Arial"
                          (Theme.primaryColor (DashboardConfig.theme dashboard))
                          (Some true) (Some "center"))])%list in
        match Component.title component with
        | Some title =>
            if truthy (Some title)
            then Ok (slide ++ [addText title
                                 (TextOptions.make x (y - 0.3) w 0.3 12 "Arial"
                                    (Theme.textColor (DashboardConfig.theme dashboard))
                                    None None)])%list
            else Ok slide
        | None => Ok slide
        end
      else Ok slide
  end.

(** The slide once every component has been visited. *)
Definition buildSlide (dashboard : DashboardConfig.t) : Result Slide :=
  forEach (addComponent dashboard) (DashboardConfig.components dashboard)
          [titleText dashboard].

Definition exportAsPowerPoint (dashboard : DashboardConfig.t)
  : Result ExportResponse.t :=
  slide <- buildSlide dashboard ;;
  let pptx := Pptx.make "LAYOUT_16x9" [slide] in
  pptxBlob <- pptx_write host pptx "blob" ;;
  url <- createObjectURL host pptxBlob ;;
  Ok (succeeded url (fileStem (DashboardConfig.title dashboard) ++ ".pptx")).

(** *** generateHTMLCode (lines 163-226) *)

(** The block of one component: the template literal of lines 209-222. *)
Definition componentHTML (component : Component.t) : string :=
  LF ++
  "        <div class=" ++ quoted "component" ++ " style=" ++ dquote ++ LF ++
  "            left: " ++ NumberToString host (leftPercent component) ++ "%;" ++ LF ++
  "            top: " ++ NumberToString host (topPercent component) ++ "%;" ++ LF ++
  "            width: " ++ NumberToString host (widthPercent component) ++ "%;" ++ LF ++
  "            height: " ++ NumberToString host (heightPercent component) ++ "%;" ++ LF ++
  "        " ++ dquote ++ ">" ++ LF ++
  "            " ++
  (match Component.title component with
   | Some title =>
       if truthy (Some title)
       then "<div class=" ++ quoted "component-title" ++ ">" ++ title ++ "</div>"
       else EmptyString
   | None => EmptyString
   end) ++ LF ++
  "            " ++
  (if Component.type component =? "kpi"
   then "<div class=" ++ quoted "kpi-value" ++ ">" ++ kpiText component ++ "</div>"
   else "<canvas id=" ++ quoted ("chart-" ++ Component.id component) ++ "></canvas>")
  ++ LF ++
  "        </div>" ++ LF ++
  "        ".

Definition generateHTMLCode (dashboard : DashboardConfig.t) : string :=
  let theme := DashboardConfig.theme dashboard in
  unlines [
    "<!DOCTYPE html>";
    "<html lang=" ++ quoted "en" ++ ">";
    "<head>";
    "    <meta charset=" ++ quoted "UTF-8" ++ ">";
    "    <meta name=" ++ quoted "viewport" ++ " content="
      ++ quoted "width=device-width, initial-scale=1.0" ++ ">";
    "    <title>" ++ DashboardConfig.title dashboard ++ "</title>";
    "    <script src=" ++ quoted "https://cdn.jsdelivr.net/npm/chart.js"
      ++ "></script>";
    "    <style>";
    "        body {";
    "            font-family: " ++ Theme.fontFamily theme ++ ";";
    "            background-color: " ++ Theme.backgroundColor theme ++ ";";
    "            color: " ++ Theme.textColor theme ++ ";";
    "            margin: 0;";
    "            padding: 20px;";
    "        }";
    "        .dashboard {";
    "            max-width: 1200px;";
    "            margin: 0 auto;";
    "            aspect-ratio: 16/9;";
    "            position: relative;";
    "        }";
    "        .component {";
    "            position: absolute;";
    "            background: white;";
    "            border: 1px solid #e5e7eb;";
    "            border-radius: 8px;";
    "            padding: 16px;";
    "            box-shadow: 0 1px 3px rgba(0,0,0,0.1);";
    "        }";
    "        .kpi-value {";
    "            font-size: 2rem;";
    "            font-weight: bold;";
    "            color: " ++ Theme.primaryColor theme ++ ";";
    "        }";
    "        .component-title {";
    "            font-size: 1.1rem;";
    "            font-weight: 600;";
    "            margin-bottom: 12px;";
    "            color: " ++ Theme.textColor theme ++ ";";
    "        }";
    "    </style>";
    "</head>";
    "<body>";
    "    <div class=" ++ quoted "dashboard" ++ ">";
    "        <h1>" ++ DashboardConfig.title dashboard ++ "</h1>";
    "        " ++ join (map componentHTML (DashboardConfig.components dashboard));
    "    </div>";
    "</body>";
    "</html>"
  ].

(** *** exportAsHTML (lines 150-161) *)
Definition exportAsHTML (dashboard : DashboardConfig.t)
  : Result ExportResponse.t :=
  let html := generateHTMLCode dashboard in
  (* Copy to clipboard *)
  clipboard_writeText host html ;;;
  encoded <- encodeURIComponent host html ;;
  Ok (succeeded ("data:text/html;charset=utf-8," ++ encoded) "dashboard.html").

(** *** exportDashboard (lines 9-37) *)

(** [startTime] is recorded on entry and never read; it is left out. *)

(** The [switch] inside the [try] block (lines 17-30). *)
Definition dispatch (dashboard : DashboardConfig.t) (format : string)
  (canvas : Canvas) : Result ExportResponse.t :=
  if format =? "jpeg" then exportAsImage canvas "jpeg"
  else if format =? "png" then exportAsImage canvas "png"
  else if format =? "pdf" then exportAsPDF canvas (DashboardConfig.title dashboard)
  else if format =? "pptx" then exportAsPowerPoint dashboard
  else if format =? "html" then exportAsHTML dashboard
  else Throw (Error ("Unsupported export format: " ++ format)).

(** [`${error.message}`] in the [catch] clause (line 34): the text of the
    message, or what the read throws, a [TypeError] when [error] is [null]
    or [undefined]. *)
Definition readMessage (error : Thrown) : Result string :=
  match error with
  | readable e => Ok (message e)
  | unreadable raised => throw raised
  end.

Definition exportDashboard (dashboard : DashboardConfig.t) (format : string)
  (canvas : Canvas) : Result ExportResponse.t :=
  try_catch (dispatch dashboard format canvas)
    (fun error =>
       text <- readMessage error ;;
       Ok (failed ("Export failed: " ++ text))).

End ExportService.


(** ** A host to run the service on examples *)

Module Demo.

(** Decimal digits of the fraction [r / d], for [0 <= r < d]. *)
Fixpoint fractionDigits (fuel : nat) (r d : Z) : string :=
  match fuel with
  | O => EmptyString
  | S fuel' =>
      if (r =? 0)%Z then EmptyString
      else DecimalString.NilZero.string_of_int (Z.to_int (r * 10 / d))
           ++ fractionDigits fuel' ((r * 10) mod d)%Z d
  end.

(** A decimal rendering of a number: the integer itself when the number is
    one, as [Number::toString] gives below 10^21. *)
Definition decimalString (q : Q) : string :=
  let n := Z.abs (Qnum q) in
  let d := Zpos (Qden q) in
  (if (Qnum q <? 0)%Z then "-" else EmptyString)
  ++ DecimalString.NilZero.string_of_int (Z.to_int (n / d))
  ++ (if (n mod d =? 0)%Z then EmptyString
      else "." ++ fractionDigits 17 (n mod d)%Z d).

Definition hexDigit (n : nat) : ascii :=
  if (n <? 10)%nat then ascii_of_nat (48 + n) else ascii_of_nat (55 + n).

Definition percentByte (n : nat) : string :=
  String "%" (String (hexDigit (n / 16)) (String (hexDigit (n mod 16)) EmptyString)).

(** The characters [encodeURIComponent] keeps: letters, digits and
    [- _ . ! ~ * ' ( )]. *)
Definition unreserved (n : nat) : bool :=
  ((65 <=? n) && (n <=? 90) || (97 <=? n) && (n <=? 122)
   || (48 <=? n) && (n <=? 57)
   || (n =? 45) || (n =? 95) || (n =? 46) || (n =? 33) || (n =? 126)
   || (n =? 42) || (n =? 39) || (n =? 40) || (n =? 41))%nat.

(** [encodeURIComponent] on code units below U+0100: the UTF-8 bytes of every
    other character, percent-encoded. *)
Fixpoint percentEncode (s : string) : string :=
  match s with
  | EmptyString => EmptyString
  | String c s' =>
      let n := nat_of_ascii c in
      (if unreserved n then String c EmptyString
       else if (n <? 128)%nat then percentByte n
       else percentByte (192 + n / 64) ++ percentByte (128 + n mod 64))
      ++ percentEncode s'
  end.

(** Every call succeeds; blobs and object URLs are placeholders, and a
    number is printed by the decimal expansion of its exact value. *)
Definition host : Host :=
  {| NumberToString := fun n => decimalString (exact n);
     readOfUndefined := fun p => readOfNullish undefined p;
     encodeURIComponent := fun s => Ok (percentEncode s);
     clipboard_writeText := fun _ => Ok tt;
     createObjectURL := fun _ => Ok "blob:dashboard";
     jsPDF_new := fun _ _ _ => Ok tt;
     jsPDF_addImage := fun _ _ => Ok tt;
     jsPDF_output := fun _ _ => Ok "%PDF";
     pptx_write := fun _ _ => Ok "PK" |}.

(** The same host with a clipboard that refuses the write. *)
Definition clipboardDenied : Host :=
  {| NumberToString := NumberToString host;
     readOfUndefined := readOfUndefined host;
     encodeURIComponent := encodeURIComponent host;
     clipboard_writeText := fun _ => Throw (Error "Write permission denied.");
     createObjectURL := createObjectURL host;
     jsPDF_new := jsPDF_new host;
     jsPDF_addImage := jsPDF_addImage host;
     jsPDF_output := jsPDF_output host;
     pptx_write := pptx_write host |}.

(** The same host with a [pdf.addImage] that rejects the image. *)
Definition imageRejected : Host :=
  {| NumberToString := NumberToString host;
     readOfUndefined := readOfUndefined host;
     encodeURIComponent := encodeURIComponent host;
     clipboard_writeText := clipboard_writeText host;
     createObjectURL := createObjectURL host;
     jsPDF_new := jsPDF_new host;
     jsPDF_addImage := fun _ _ => Throw (Error "Invalid image data");
     jsPDF_output := jsPDF_output host;
     pptx_write := pptx_write host |}.


Definition canvas : Canvas :=
  {| toDataURL := fun args =>
       match args with
       | DataURLOptions format _ _ => Ok ("data:image/" ++ format ++ ";base64,")
       | DataURLType mime _ => Ok ("data:" ++ mime ++ ";base64,")
       end |}.

Definition theme : Theme.t :=
  Theme.make "#2563eb" "#ffffff" "#111827" "Arial".

Definition dashboard (title : string) (components : list Component.t)
  : DashboardConfig.t :=
  DashboardConfig.make title theme components.

(** A KPI tile titled Revenue, value 1000, unit USD. *)
Definition revenue : Component.t :=
  Component.make "kpi-1" "kpi" (Some "Revenue")
    (Position.make 40 45) (Size.make 200 90)
    (ComponentData.make None (Some (VNumber 1000)) (Some "USD")).

(** A KPI tile with no unit. *)
Definition visitors : Component.t :=
  Component.make "kpi-2" "kpi" (Some "Visitors")
    (Position.make 280 45) (Size.make 200 90)
    (ComponentData.make None (Some (VNumber 42)) None).

(** A chart whose first dataset has labels A, B and data 1, 2. *)
Definition chartAB : Component.t :=
  Component.make "chart-1" "chart" (Some "Sales")
    (Position.make 0 225) (Size.make 400 225)
    (ComponentData.make (Some [Dataset.make (Some ["A"; "B"]) [1; 2]]) None None).

(** A chart with no [datasets] property, and one whose [datasets] is empty. *)
Definition chartNoDatasets : Component.t :=
  Component.make "chart-2" "chart" (Some "Pending")
    (Position.make 400 225) (Size.make 400 225)
    (ComponentData.make None None None).

Definition chartEmptyDatasets : Component.t :=
  Component.make "chart-3" "chart" (Some "Empty")
    (Position.make 400 225) (Size.make 400 225)
    (ComponentData.make (Some []) None None).

(** A component of a type the presentation renderer does not know. *)
Definition table : Component.t :=
  Component.make "table-1" "table" (Some "Orders")
    (Position.make 400 0) (Size.make 400 225)
    (ComponentData.make None None None).


(** A component within the canvas, 7 from its left edge and 793 wide. *)
Definition wide : Component.t :=
  Component.make "chart-5" "chart" None
    (Position.make 7 0) (Size.make 793 450)
    (ComponentData.make (Some [Dataset.make None []]) None None).

End Demo.

(** ** Predicates used in the statements *)





(** Position and size are the whole numbers [x], [y], [w], [h], within the
    canvas. *)
Definition onGrid (component : Component.t) (x y w h : nat) : Prop :=
  (x + w <= 800)%nat /\ (y + h <= 450)%nat /\
  Component.position component
  = Position.make (wholeNumber (Z.of_nat x)) (wholeNumber (Z.of_nat y)) /\
  Component.size component
  = Size.make (wholeNumber (Z.of_nat w)) (wholeNumber (Z.of_nat h)).






(** The top edge the presentation renderer gives a component at the whole
    number [k] of the canvas, and the check over all of them of the box of a
    KPI title: adding its height 0.3 to its top edge gives the top edge of
    the KPI box, and its top edge is above 0.3 + 0.8 exactly up to 16. *)
Definition slideYOf (k : nat) : float :=
  (wholeNumber (Z.of_nat k) / 450) * 5.6 + 1.2.

Definition titleRows_checked : bool :=
  forallb (fun k =>
             PrimFloat.eqb ((slideYOf k - 0.3) + 0.3) (slideYOf k)
             && Bool.eqb (PrimFloat.ltb (slideYOf k - 0.3) (0.3 + 0.8))
                  (k <=? 16)%nat)
    (seq 0 451).

(** The left edge and the height the presentation renderer gives at the
    whole number [k] of the canvas. *)
Definition slideXOf (k : nat) : float :=
  (wholeNumber (Z.of_nat k) / 800) * 10.
Definition slideHOf (k : nat) : float :=
  (wholeNumber (Z.of_nat k) / 450) * 5.6.

(** The check that [f a + g b], as binary64 adds them, is at most [bound]
    for all whole numbers [a] and [b] with [a + b <= n]. *)
Definition pairSums_checked (f g : nat -> float) (n : nat) (bound : float)
  : bool :=
  let seconds := map g (seq 0 (S n)) in
  forallb (fun al : nat * float =>
             forallb (fun second => leb (snd al + second) bound)
               (firstn (S n - fst al) seconds))
    (combine (seq 0 (S n)) (map f (seq 0 (S n)))).

(** The checks of the slide geometry over the whole numbers of the canvas:
    no edge is left of 0 or above 1.2, no size is negative, and the right
    and bottom edges are at most one rounding step beyond 10 and 6.8. *)
Definition slideEdges_checked : bool :=
  forallb (fun k => leb 0 (slideXOf k)) (seq 0 801)
  && forallb (fun k => leb 1.2 (slideYOf k) && leb 0 (slideHOf k)) (seq 0 451).

Definition slideRight_checked : bool :=
  pairSums_checked slideXOf slideXOf 800 10.000000000000002.

Definition slideBottom_checked : bool :=
  pairSums_checked slideYOf slideHOf 450 6.800000000000001.

(** [part] occurs in [whole]. *)
Definition occursIn (part whole : string) : Prop :=
  exists before after, whole = before ++ part ++ after.

(** No code unit of [s] is white space. *)
Fixpoint noWhiteSpace (s : string) : bool :=
  match s with
  | EmptyString => true
  | String c s' => negb (isWhiteSpace c) && noWhiteSpace s'
  end.

(** [s] is a non-empty run of white space. *)
Fixpoint whiteSpaceRun (s : string) : bool :=
  match s with
  | EmptyString => false
  | String c EmptyString => isWhiteSpace c
  | String c s' => isWhiteSpace c && whiteSpaceRun s'
  end.

(** [s] starts, or ends, with a white-space code unit. *)
Definition startsWithWhiteSpace (s : string) : bool :=
  match s with
  | EmptyString => false
  | String c _ => isWhiteSpace c
  end.

Fixpoint endsWithWhiteSpace (s : string) : bool :=
  match s with
  | EmptyString => false
  | String c EmptyString => isWhiteSpace c
  | String _ s' => endsWithWhiteSpace s'
  end.

(** The first dataset of a component, when there is one. *)
Definition firstDataset (component : Component.t) : option Dataset.t :=
  match ComponentData.datasets (Component.data component) with
  | Some (first :: _) => Some first
  | _ => None
  end.

(** The geometry the presentation renderer gives a chart. *)
Definition chartOptions (component : Component.t) : ChartOptions.t :=
  ChartOptions.make (slideX component) (slideY component)
    (slideW component) (slideH component) (Component.title component).

(** The text box the presentation renderer gives a KPI tile, and the box of
    its title. *)
Definition kpiBox (host : Host) (dashboard : DashboardConfig.t)
  (component : Component.t) : SlideObject :=
  addText (kpiText host component)
    (TextOptions.make (slideX component) (slideY component)
       (slideW component) (slideH component) 18 "Arial"
       (Theme.primaryColor (DashboardConfig.theme dashboard))
       (Some true) (Some "center")).

Definition kpiTitleBox (dashboard : DashboardConfig.t)
  (component : Component.t) (title : string) : SlideObject :=
  addText title
    (TextOptions.make (slideX component) (slideY component - 0.3)
       (slideW component) 0.3 12 "Arial"
       (Theme.textColor (DashboardConfig.theme dashboard))
       None None).

(** A chart component whose [datasets] is present and empty: the one input
    on which the callback of the presentation renderer throws. *)
Definition hasEmptyDatasets (component : Component.t) : bool :=
  (Component.type component =? "chart")
  && match ComponentData.datasets (Component.data component) with
     | Some [] => true
     | _ => false
     end.

(** The objects one component adds to the slide when the callback returns:
    a bar chart, a KPI box with or without its title box, or nothing. *)
Definition componentObjects (host : Host) (dashboard : DashboardConfig.t)
  (component : Component.t) : list SlideObject :=
  match (if Component.type component =? "chart"
         then firstDataset component else None) with
  | Some first => [addChart "bar" (chartSeries first) (chartOptions component)]
  | None =>
      if Component.type component =? "kpi"
      then kpiBox host dashboard component
           :: match Component.title component with
              | Some title =>
                  if truthy (Some title)
                  then [kpiTitleBox dashboard component title]
                  else []
              | None => []
              end
      else []
  end.

(** A response with [success: true]. *)
Definition isSuccess (r : Result ExportResponse.t) : Prop :=
  exists url name, r = Ok (succeeded url name).

(** The opening of a component's block in the markup, up to the closing
    quote of its class. *)
Definition blockMarker : string := "<div class=" ++ quoted "component".

(** [s] starts with [marker]. *)
Fixpoint startsWith (marker s : string) : bool :=
  match marker with
  | EmptyString => true
  | String a marker' =>
      match s with
      | EmptyString => false
      | String b s' => Ascii.eqb a b && startsWith marker' s'
      end
  end.

(** The number of positions of [s] at which [marker] occurs. *)
Fixpoint occurrences (marker s : string) : nat :=
  match s with
  | EmptyString => 0
  | String _ s' => (if startsWith marker s then 1 else 0) + occurrences marker s'
  end.

(** [s] holds no less-than sign, hence opens no tag. *)
Fixpoint noMarkup (s : string) : bool :=
  match s with
  | EmptyString => true
  | String c s' => negb (Ascii.eqb c "<") && noMarkup s'
  end.

(** The strings of a component, and of a dashboard, that the markup
    renderer copies into the document hold no less-than sign. *)
Definition plainComponent (host : Host) (component : Component.t) : bool :=
  noMarkup (Component.id component)
  && noMarkup (orEmpty (Component.title component))
  && noMarkup (valueToString host (ComponentData.value (Component.data component)))
  && noMarkup (orEmpty (ComponentData.unit (Component.data component))).

Definition plainDashboard (host : Host) (dashboard : DashboardConfig.t) : bool :=
  let theme := DashboardConfig.theme dashboard in
  noMarkup (DashboardConfig.title dashboard)
  && noMarkup (Theme.fontFamily theme)
  && noMarkup (Theme.backgroundColor theme)
  && noMarkup (Theme.textColor theme)
  && noMarkup (Theme.primaryColor theme)
  && forallb (plainComponent host) (DashboardConfig.components dashboard).


(** * Properties *)

(** ** Strings *)

Lemma append_length (s1 s2 : string) :
  String.length (s1 ++ s2) = (String.length s1 + String.length s2)%nat.
Proof. induction s1 as [| c s1 IH]; simpl; [ | rewrite IH ]; reflexivity. Qed.

Lemma append_assoc (s1 s2 s3 : string) :
  (s1 ++ s2) ++ s3 = s1 ++ s2 ++ s3.
Proof. induction s1 as [| c s1 IH]; simpl; [ | rewrite IH ]; reflexivity. Qed.

Lemma join_cons (x : string) (xs : list string) : join (x :: xs) = x ++ join xs.
Proof.
  unfold join. destruct xs as [| y ys]; simpl; [ | reflexivity ].
  induction x as [| c x IH]; simpl; [ | rewrite <- IH ]; reflexivity.
Qed.

Lemma append_nil_r (s : string) : s ++ EmptyString = s.
Proof. induction s as [| c s IH]; simpl; [ | rewrite IH ]; reflexivity. Qed.

Lemma join_app (l1 l2 : list string) : join (l1 ++ l2) = join l1 ++ join l2.
Proof.
  induction l1 as [| x l1 IH]; [ reflexivity | ].
  change ((x :: l1) ++ l2)%list with (x :: (l1 ++ l2))%list.
  rewrite !join_cons, IH, append_assoc. reflexivity.
Qed.

Lemma occursIn_refl (s : string) : occursIn s s.
Proof. exists EmptyString, EmptyString. rewrite append_nil_r. reflexivity. Qed.

Lemma occursIn_app_l (part s1 s2 : string) :
  occursIn part s1 -> occursIn part (s1 ++ s2).
Proof.
  intros (b & a & ->). exists b, (a ++ s2).
  rewrite !append_assoc. reflexivity.
Qed.

Lemma occursIn_app_r (part s1 s2 : string) :
  occursIn part s2 -> occursIn part (s1 ++ s2).
Proof.
  intros (b & a & ->). exists (s1 ++ b), a.
  rewrite !append_assoc. reflexivity.
Qed.

Lemma occursIn_trans (s1 s2 s3 : string) :
  occursIn s1 s2 -> occursIn s2 s3 -> occursIn s1 s3.
Proof.
  intros (b & a & ->) (b' & a' & ->). exists (b' ++ b), (a ++ a').
  rewrite !append_assoc. reflexivity.
Qed.

(** The block of every component is part of the generated document. *)
Lemma generateHTMLCode_block host dashboard component :
  In component (DashboardConfig.components dashboard) ->
  occursIn (componentHTML host component) (generateHTMLCode host dashboard).
Proof.
  intros Hin. apply in_split in Hin as (l1 & l2 & Hl).
  unfold generateHTMLCode. rewrite Hl. cbv zeta.
  rewrite map_app. cbn [map]. rewrite join_app, join_cons.
  unfold unlines. cbn [String.concat].
  repeat first
    [ apply occursIn_app_l; apply occursIn_app_r; apply occursIn_app_r;
      apply occursIn_app_l; apply occursIn_refl
    | apply occursIn_app_r ].
Qed.

(** ** What each renderer returns *)





(** The orchestrator returns what the renderer returns, turns a thrown
    value with a readable message into the failure response, and throws
    what the read of the message throws otherwise. *)
Lemma exportDashboard_Ok host dashboard format canvas r :
  dispatch host dashboard format canvas = Ok r ->
  exportDashboard host dashboard format canvas = Ok r.
Proof. unfold exportDashboard. intros ->. reflexivity. Qed.

Lemma exportDashboard_Throw host dashboard format canvas e :
  dispatch host dashboard format canvas = Throw e ->
  exportDashboard host dashboard format canvas
  = Ok (failed ("Export failed: " ++ message e)).
Proof. unfold exportDashboard. intros ->. reflexivity. Qed.



(** The pdf export is the pdf renderer inside the catch clause. *)
Lemma exportDashboard_pdf host dashboard canvas :
  exportDashboard host dashboard "pdf" canvas
  = try_catch (exportAsPDF host canvas (DashboardConfig.title dashboard))
      (fun error => text <- readMessage error ;;
                    Ok (failed ("Export failed: " ++ text))).
Proof. reflexivity. Qed.




Lemma dispatch_pptx host dashboard canvas :
  dispatch host dashboard "pptx" canvas = exportAsPowerPoint host dashboard.
Proof. reflexivity. Qed.

Lemma dispatch_html host dashboard canvas :
  dispatch host dashboard "html" canvas = exportAsHTML host dashboard.
Proof. reflexivity. Qed.

(** ** The orchestrator *)







(** The format svg on the example host. *)
Example exportDashboard_svg :
  exportDashboard Demo.host (Demo.dashboard "Q1 Report" [Demo.revenue]) "svg" Demo.canvas
  = Ok (failed "Export failed: Unsupported export format: svg").
Proof. reflexivity. Qed.

(** ** The markup renderer's geometry *)






Lemma firstn_seq_le (n start len : nat) :
  (n <= len)%nat -> firstn n (seq start len) = seq start n.
Proof.
  revert start len. induction n as [| n IH]; intros start len H; [ reflexivity | ].
  destruct len as [| len]; [ lia | ].
  cbn [seq firstn]. rewrite IH by lia. reflexivity.
Qed.





(** ** File names *)

Lemma isWhiteSpace_toLowerCase_char (c : ascii) :
  isWhiteSpace (toLowerCase_char c) = isWhiteSpace c.
Proof. destruct c as [[] [] [] [] [] [] [] []]; reflexivity. Qed.

Lemma toLowerCase_app (s1 s2 : string) :
  toLowerCase (s1 ++ s2) = toLowerCase s1 ++ toLowerCase s2.
Proof. induction s1 as [| c s1 IH]; simpl; [ | rewrite IH ]; reflexivity. Qed.


Lemma noWhiteSpace_replaceWhitespace_from (s : string) (inRun : bool) :
  noWhiteSpace (replaceWhitespace_from inRun s) = true.
Proof.
  revert inRun. induction s as [| c s IH]; intros inRun; simpl; [ reflexivity | ].
  destruct (isWhiteSpace c) eqn:Hc.
  - destruct inRun; simpl; apply IH.
  - simpl. rewrite Hc, IH. reflexivity.
Qed.

Lemma replaceWhitespace_from_id (s : string) (inRun : bool) :
  noWhiteSpace s = true -> replaceWhitespace_from inRun s = s.
Proof.
  revert inRun. induction s as [| c s IH]; intros inRun; simpl; [ reflexivity | ].
  intros H. apply andb_true_iff in H as [Hc Hs].
  apply negb_true_iff in Hc. rewrite Hc, (IH false Hs). reflexivity.
Qed.








(** The example host on two titles: one blank, and a run of blanks. *)
Example export_filenames_sales :
  exportDashboard Demo.host (Demo.dashboard "Sales Overview" [Demo.revenue])
    "pdf" Demo.canvas
  = Ok (succeeded "blob:dashboard" "sales_overview.pdf") /\
  exportDashboard Demo.host (Demo.dashboard "Sales   Overview 2024" [Demo.revenue])
    "pptx" Demo.canvas
  = Ok (succeeded "blob:dashboard" "sales_overview_2024.pptx") /\
  exportDashboard Demo.host (Demo.dashboard "Sales Overview" [Demo.revenue])
    "png" Demo.canvas
  = Ok (succeeded "data:image/png;base64," "dashboard.png").
Proof. repeat split; reflexivity. Qed.

(** ** The image box of the PDF page *)

Local Open Scope Q_scope.

(** For any page larger than its margins the box has the 16:9 ratio, lies
    within the 10-unit margins, is centred, and is the width fit unless the
    width-derived height exceeds the available height. *)
Lemma imageBox_fit (W H : Q) :
  20 < W -> 20 < H ->
  let b := imageBox W H in
  Box.imgWidth b / Box.imgHeight b == 16 / 9 /\
  Box.x b + Box.imgWidth b <= W - 10 /\
  Box.y b + Box.imgHeight b <= H - 10 /\
  10 <= Box.x b /\ 10 <= Box.y b /\
  Box.x b == (W - Box.imgWidth b) / 2 /\
  Box.y b == (H - Box.imgHeight b) / 2 /\
  ((W - 20) / (16 / 9) <= H - 20 ->
   Box.imgWidth b == W - 20 /\ Box.imgHeight b == (W - 20) / (16 / 9)) /\
  (H - 20 < (W - 20) / (16 / 9) ->
   Box.imgHeight b == H - 20 /\ Box.imgWidth b == (H - 20) * (16 / 9)).
Proof.
  intros HW HH. unfold imageBox.
  assert (E : forall q, q / aspectRatio == q * (9 # 16)).
  { intros q. unfold aspectRatio. field. }
  assert (E' : forall q, q / (16 / 9) == q * (9 # 16)).
  { intros q. field. }
  assert (A : aspectRatio == 16 # 9) by reflexivity.
  assert (D2 : forall q, q / 2 == q * (1 # 2)) by (intros; reflexivity).
  destruct (Qlt_le_dec (H - 20) ((W - 20) / aspectRatio)) as [Hlt | Hle];
    cbv zeta; cbn [Box.x Box.y Box.imgWidth Box.imgHeight];
    rewrite E in *; rewrite ?E, ?E', ?D2, ?A; repeat split; intros; try lra.
  - field. lra.
  - field. lra.
Qed.

(** C4.  The image box that [exportAsPDF] hands to [addImage] has
    width / height = 16/9, fits inside the 10-unit margins of the 297 x 210
    page (x + width <= 287, y + height <= 200) and is centred
    (x = (297 - width) / 2, y = (210 - height) / 2).  It is the fit to the
    available width, 277 by 277 / (16/9); for any page the box is that fit
    unless the height so derived exceeds the available height, in which case
    the height is the available one and the width is recomputed from it.  On
    binary64 numbers the same computation gives x = 10, y = 27.09375,
    width = 277, height = 155.8125, with width / height equal to 16 / 9 as
    computed there. *)
Theorem pdf_image_box :
  let b := imageBox pdfWidth pdfHeight in
  (forall imgData,
     JsPDF.images (pdfDocument imgData)
     = [AddImage.make imgData "JPEG"
          (Box.x b) (Box.y b) (Box.imgWidth b) (Box.imgHeight b)]) /\
  Box.imgWidth b / Box.imgHeight b == 16 / 9 /\
  Box.x b + Box.imgWidth b <= 287 /\
  Box.y b + Box.imgHeight b <= 200 /\
  Box.x b == (297 - Box.imgWidth b) / 2 /\
  Box.y b == (210 - Box.imgHeight b) / 2 /\
  Box.imgWidth b == 297 - 20 /\
  Box.imgHeight b == (297 - 20) / (16 / 9) /\
  (forall W H, 20 < W -> 20 < H ->
     let b := imageBox W H in
     Box.imgWidth b / Box.imgHeight b == 16 / 9 /\
     Box.x b + Box.imgWidth b <= W - 10 /\
     Box.y b + Box.imgHeight b <= H - 10 /\
     Box.x b == (W - Box.imgWidth b) / 2 /\
     Box.y b == (H - Box.imgHeight b) / 2 /\
     ((W - 20) / (16 / 9) <= H - 20 ->
      Box.imgWidth b == W - 20 /\ Box.imgHeight b == (W - 20) / (16 / 9)) /\
     (H - 20 < (W - 20) / (16 / 9) ->
      Box.imgHeight b == H - 20 /\ Box.imgWidth b == (H - 20) * (16 / 9))) /\
  (let b64 := Binary64.imageBox Binary64.pdfWidth Binary64.pdfHeight in
   b64 = Binary64.Build_Box 10 27.09375 277 155.8125 /\
   PrimFloat.eqb (Binary64.imgWidth b64 / Binary64.imgHeight b64) (16 / 9) = true /\
   PrimFloat.leb (Binary64.x b64 + Binary64.imgWidth b64) 287 = true /\
   PrimFloat.leb (Binary64.y b64 + Binary64.imgHeight b64) 200 = true)%float.
Proof.
  cbv zeta.
  assert (HW : 20 < pdfWidth) by (unfold pdfWidth; lra).
  assert (HH : 20 < pdfHeight) by (unfold pdfHeight; lra).
  destruct (imageBox_fit pdfWidth pdfHeight HW HH)
    as (Hr & Hx & Hy & _ & _ & Hcx & Hcy & Hfit & _).
  assert (Hwide : (pdfWidth - 20) / (16 / 9) <= pdfHeight - 20)
    by (vm_compute; discriminate).
  destruct (Hfit Hwide) as [Hw Hh].
  split; [ intros imgData; reflexivity | ].
  split; [ exact Hr | ].
  split; [ exact Hx | ].
  split; [ exact Hy | ].
  split; [ exact Hcx | ].
  split; [ exact Hcy | ].
  split; [ exact Hw | ].
  split; [ exact Hh | ].
  split.
  - intros W H HW' HH'.
    destruct (imageBox_fit W H HW' HH')
      as (Gr & Gx & Gy & _ & _ & Gcx & Gcy & Gfit & Gshrink).
    repeat split; solve [ assumption | apply Gfit; assumption
                        | apply Gshrink; assumption ].
  - repeat split; vm_compute; reflexivity.
Qed.

Local Close Scope Q_scope.

(** ** The presentation renderer *)

Lemma forEach_app {A S : Type} (callback : S -> A -> Result S) (l1 l2 : list A) (s : S) :
  forEach callback (l1 ++ l2)%list s
  = (s' <- forEach callback l1 s ;; forEach callback l2 s').
Proof.
  revert s. induction l1 as [| a l1 IH]; intros s; simpl; [ reflexivity | ].
  destruct (callback s a) as [s' | e | v]; simpl;
    [ apply IH | reflexivity | reflexivity ].
Qed.

(** When one element makes the callback throw [e] in every state, and the
    callback throws nothing else, the loop throws [e]. *)
Lemma forEach_throws {A S : Type} (callback : S -> A -> Result S)
  (l : list A) (a : A) (e : JsError) (s : S) :
  In a l ->
  (forall s0, callback s0 a = Throw e) ->
  (forall s0 a0 e0, callback s0 a0 = Throw e0 -> e0 = e) ->
  (forall s0 a0 raised, callback s0 a0 <> ThrowUnreadable raised) ->
  forEach callback l s = Throw e.
Proof.
  intros Hin Ha Honly Hnever. revert s.
  induction l as [| b l IH]; intros s; [ contradiction | ].
  simpl. destruct (callback s b) as [s' | e0 | v] eqn:Eb; simpl.
  - destruct Hin as [-> | Hin]; [ rewrite Ha in Eb; discriminate | ].
    apply IH. exact Hin.
  - f_equal. eapply Honly. exact Eb.
  - exfalso. exact (Hnever _ _ _ Eb).
Qed.

Lemma mapi_from_length {A B : Type} (f : A -> nat -> B) (l : list A) (i : nat) :
  List.length (mapi_from i f l) = List.length l.
Proof.
  revert i. induction l as [| a l IH]; intros i; simpl; [ | rewrite IH ]; reflexivity.
Qed.

Lemma mapi_from_nth_error {A B : Type} (f : A -> nat -> B) (l : list A) (i k : nat) (a : A) :
  nth_error l k = Some a ->
  nth_error (mapi_from i f l) k = Some (f a (i + k)%nat).
Proof.
  revert i k. induction l as [| b l IH]; intros i k; destruct k as [| k]; simpl;
    try discriminate.
  - intros [= ->]. rewrite Nat.add_0_r. reflexivity.
  - intros H. rewrite (IH (S i) k H). f_equal. f_equal. lia.
Qed.

(** The branches of the callback. *)
Lemma addComponent_chart host dashboard slide component first others :
  Component.type component = "chart" ->
  ComponentData.datasets (Component.data component) = Some (first :: others) ->
  addComponent host dashboard slide component
  = Ok (slide ++ [addChart "bar" (chartSeries first) (chartOptions component)])%list.
Proof.
  intros Ht Hd. unfold addComponent. rewrite Ht, Hd. reflexivity.
Qed.

Lemma addComponent_chart_empty host dashboard slide component :
  Component.type component = "chart" ->
  ComponentData.datasets (Component.data component) = Some [] ->
  addComponent host dashboard slide component = Throw (readOfUndefined host "labels").
Proof.
  intros Ht Hd. unfold addComponent. rewrite Ht, Hd. reflexivity.
Qed.

Lemma addComponent_chart_undefined host dashboard slide component :
  Component.type component = "chart" ->
  ComponentData.datasets (Component.data component) = None ->
  addComponent host dashboard slide component = Ok slide.
Proof.
  intros Ht Hd. unfold addComponent. rewrite Ht, Hd. reflexivity.
Qed.

Lemma addComponent_kpi host dashboard slide component :
  Component.type component = "kpi" ->
  addComponent host dashboard slide component
  = Ok (slide ++ kpiBox host dashboard component
              :: match Component.title component with
                 | Some title =>
                     if truthy (Some title)
                     then [kpiTitleBox dashboard component title]
                     else []
                 | None => []
                 end)%list.
Proof.
  intros Ht. unfold addComponent. rewrite Ht. cbn [String.eqb Ascii.eqb Bool.eqb].
  cbv zeta. unfold kpiBox, kpiTitleBox.
  destruct (Component.title component) as [title |]; [ | reflexivity ].
  destruct (truthy (Some title)); [ | reflexivity ].
  rewrite <- app_assoc. reflexivity.
Qed.

Lemma addComponent_other host dashboard slide component :
  Component.type component <> "chart" ->
  Component.type component <> "kpi" ->
  addComponent host dashboard slide component = Ok slide.
Proof.
  intros Hc Hk. unfold addComponent.
  apply String.eqb_neq in Hc. apply String.eqb_neq in Hk.
  rewrite Hc, Hk. reflexivity.
Qed.

(** The callback throws nothing but the read of [labels] from [undefined]. *)
Lemma addComponent_throws host dashboard slide component e :
  addComponent host dashboard slide component = Throw e ->
  e = readOfUndefined host "labels".
Proof.
  unfold addComponent.
  destruct (Component.type component =? "chart");
    [ destruct (ComponentData.datasets (Component.data component))
        as [[| first others] |] | ];
    cbn [nth_error bind];
    try (intros [= <-]; reflexivity);
    destruct (Component.type component =? "kpi"); try discriminate;
    destruct (Component.title component) as [t |]; try discriminate;
    destruct (truthy (Some t)); discriminate.
Qed.

(** The callback throws neither [null] nor [undefined]. *)
Lemma addComponent_never_unreadable host dashboard slide component raised :
  addComponent host dashboard slide component <> ThrowUnreadable raised.
Proof.
  unfold addComponent.
  destruct (Component.type component =? "chart");
    [ destruct (ComponentData.datasets (Component.data component))
        as [[| first others] |] | ];
    cbn [nth_error bind]; try discriminate;
    destruct (Component.type component =? "kpi"); try discriminate;
    destruct (Component.title component) as [t |]; try discriminate;
    destruct (truthy (Some t)); discriminate.
Qed.

Lemma hasEmptyDatasets_true (component : Component.t) :
  hasEmptyDatasets component = true <->
  Component.type component = "chart" /\
  ComponentData.datasets (Component.data component) = Some [].
Proof.
  unfold hasEmptyDatasets. rewrite andb_true_iff, String.eqb_eq.
  destruct (ComponentData.datasets (Component.data component)) as [[| d ds] |];
    intuition congruence.
Qed.

Lemma addComponent_objects host dashboard slide component :
  hasEmptyDatasets component = false ->
  addComponent host dashboard slide component
  = Ok (slide ++ componentObjects host dashboard component)%list.
Proof.
  unfold hasEmptyDatasets, addComponent, componentObjects, firstDataset, kpiBox,
    kpiTitleBox.
  destruct (Component.type component =? "chart");
    [ destruct (ComponentData.datasets (Component.data component))
        as [[| first others] |] | ];
    cbn [andb nth_error bind]; try discriminate; intros _; try reflexivity;
    (destruct (Component.type component =? "kpi");
     [ | rewrite app_nil_r; reflexivity ]);
    (destruct (Component.title component) as [t |];
     [ destruct (truthy (Some t)) | ]);
    rewrite <- ?app_assoc; reflexivity.
Qed.

Lemma forEach_addComponent_objects host dashboard components slide :
  existsb hasEmptyDatasets components = false ->
  forEach (addComponent host dashboard) components slide
  = Ok (slide ++ flat_map (componentObjects host dashboard) components)%list.
Proof.
  revert slide. induction components as [| c l IH]; intros slide H.
  - simpl. rewrite app_nil_r. reflexivity.
  - simpl in H. apply orb_false_iff in H as [Hc Hl].
    cbn [forEach flat_map]. rewrite (addComponent_objects _ _ _ _ Hc).
    cbn [bind]. rewrite (IH _ Hl), <- app_assoc. reflexivity.
Qed.

Lemma buildSlide_throws host dashboard :
  existsb hasEmptyDatasets (DashboardConfig.components dashboard) = true ->
  buildSlide host dashboard = Throw (readOfUndefined host "labels").
Proof.
  intros H. apply existsb_exists in H as (c & Hin & Hc).
  apply hasEmptyDatasets_true in Hc as [Ht Hd].
  unfold buildSlide. apply (forEach_throws _ _ c); [ exact Hin | | | ].
  - intros s0. apply addComponent_chart_empty; assumption.
  - intros s0 a0 e0. apply addComponent_throws.
  - intros s0 a0 v. apply addComponent_never_unreadable.
Qed.

Lemma buildSlide_objects host dashboard :
  existsb hasEmptyDatasets (DashboardConfig.components dashboard) = false ->
  buildSlide host dashboard
  = Ok (titleText dashboard
        :: flat_map (componentObjects host dashboard)
             (DashboardConfig.components dashboard)).
Proof.
  intros H. unfold buildSlide.
  rewrite (forEach_addComponent_objects _ _ _ _ H). reflexivity.
Qed.

(** The pptx export once the slide is built: the write of the presentation
    and the object URL of its blob decide the response. *)
Lemma exportDashboard_pptx_written host dashboard canvas slide blob url :
  buildSlide host dashboard = Ok slide ->
  pptx_write host (Pptx.make "LAYOUT_16x9" [slide]) "blob" = Ok blob ->
  createObjectURL host blob = Ok url ->
  exportDashboard host dashboard "pptx" canvas
  = Ok (succeeded url (fileStem (DashboardConfig.title dashboard) ++ ".pptx")).
Proof.
  intros Hslide Hblob Hurl.
  apply exportDashboard_Ok. rewrite dispatch_pptx. unfold exportAsPowerPoint.
  rewrite Hslide; cbn [bind]. rewrite Hblob; cbn [bind]. rewrite Hurl.
  reflexivity.
Qed.

Lemma exportDashboard_pptx_refused host dashboard canvas slide e :
  buildSlide host dashboard = Ok slide ->
  pptx_write host (Pptx.make "LAYOUT_16x9" [slide]) "blob" = Throw e ->
  exportDashboard host dashboard "pptx" canvas
  = Ok (failed ("Export failed: " ++ message e)).
Proof.
  intros Hslide Hblob.
  apply exportDashboard_Throw. rewrite dispatch_pptx. unfold exportAsPowerPoint.
  rewrite Hslide; cbn [bind]. rewrite Hblob. reflexivity.
Qed.

(** The html export once the clipboard holds the document and the document
    is encoded. *)
Lemma exportDashboard_html_written host dashboard canvas written encoded :
  clipboard_writeText host (generateHTMLCode host dashboard) = Ok written ->
  encodeURIComponent host (generateHTMLCode host dashboard) = Ok encoded ->
  exportDashboard host dashboard "html" canvas
  = Ok (succeeded ("data:text/html;charset=utf-8," ++ encoded) "dashboard.html").
Proof.
  intros Hclip Henc. apply exportDashboard_Ok.
  rewrite dispatch_html. unfold exportAsHTML. cbv zeta.
  rewrite Hclip; cbn [bind]. rewrite Henc. reflexivity.
Qed.

(** The objects of a component are among those of its dashboard. *)
Lemma buildSlide_holds host dashboard component object :
  In component (DashboardConfig.components dashboard) ->
  In object (componentObjects host dashboard component) ->
  In object (titleText dashboard
             :: flat_map (componentObjects host dashboard)
                  (DashboardConfig.components dashboard)).
Proof.
  intros Hin Hobj. right. apply in_flat_map. exists component. split; assumption.
Qed.

(** C5.  A dashboard with one kpi component titled Revenue, value 1000, unit
    USD gives a slide with, after the dashboard's title box, exactly one
    centred text box reading 1000 USD and one title box reading Revenue at
    the same x and width, 0.3 above it and 0.3 high.  A dashboard with one
    chart component whose first dataset has labels A, B and data 1, 2 gives
    one bar chart with the series (A, [1]), (B, [2]). *)
Theorem presentation_examples
  (host : Host) (title : string) (theme : Theme.t)
  (id : string) (position : Position.t) (size : Size.t) :
  NumberToString host 1000 = "1000" ->
  let x := Position.x position / 800 * 10 in
  let y := Position.y position / 450 * 5.6 + 1.2 in
  let w := Size.width size / 800 * 10 in
  let h := Size.height size / 450 * 5.6 in
  (forall datasets,
     let kpi :=
       Component.make id "kpi" (Some "Revenue") position size
         (ComponentData.make datasets (Some (VNumber 1000)) (Some "USD")) in
     let dashboard := DashboardConfig.make title theme [kpi] in
     buildSlide host dashboard
     = Ok [titleText dashboard;
           addText "1000 USD"
             {| TextOptions.x := x; TextOptions.y := y;
                TextOptions.w := w; TextOptions.h := h;
                TextOptions.fontSize := 18; TextOptions.fontFace := "Arial";
                TextOptions.color := Theme.primaryColor theme;
                TextOptions.bold := Some true;
                TextOptions.align := Some "center" |};
           addText "Revenue"
             {| TextOptions.x := x; TextOptions.y := y - 0.3;
                TextOptions.w := w; TextOptions.h := 0.3;
                TextOptions.fontSize := 12; TextOptions.fontFace := "Arial";
                TextOptions.color := Theme.textColor theme;
                TextOptions.bold := None;
                TextOptions.align := None |}]) /\
  (forall chartTitle otherDatasets value unit,
     let chart :=
       Component.make id "chart" chartTitle position size
         (ComponentData.make
            (Some (Dataset.make (Some ["A"; "B"]) [1; 2] :: otherDatasets))
            value unit) in
     let dashboard := DashboardConfig.make title theme [chart] in
     buildSlide host dashboard
     = Ok [titleText dashboard;
           addChart "bar"
             [ {| Series.name := "A"; Series.values := [Some 1] |};
               {| Series.name := "B"; Series.values := [Some 2] |} ]
             {| ChartOptions.x := x; ChartOptions.y := y;
                ChartOptions.w := w; ChartOptions.h := h;
                ChartOptions.title := chartTitle |}]).
Proof.
  intros Hnum. cbv zeta. split.
  - intros datasets. unfold buildSlide.
    cbn [forEach DashboardConfig.components].
    rewrite addComponent_kpi by reflexivity.
    cbn [bind forEach app Component.title truthy].
    unfold kpiBox, kpiTitleBox, kpiText, valueToString.
    cbn [Component.data ComponentData.value ComponentData.unit orEmpty truthy].
    rewrite Hnum. reflexivity.
  - intros chartTitle otherDatasets value unit. unfold buildSlide.
    cbn [forEach DashboardConfig.components].
    erewrite addComponent_chart by reflexivity.
    reflexivity.
Qed.

Lemma presentation_examples_witness :
  buildSlide Demo.host (Demo.dashboard "Q1 Report" [Demo.revenue])
  = Ok [titleText (Demo.dashboard "Q1 Report" [Demo.revenue]);
        kpiBox Demo.host (Demo.dashboard "Q1 Report" [Demo.revenue]) Demo.revenue;
        kpiTitleBox (Demo.dashboard "Q1 Report" [Demo.revenue]) Demo.revenue "Revenue"].
Proof.
  exact (proj1 (presentation_examples Demo.host "Q1 Report" Demo.theme "kpi-1"
                  (Position.make 40 45) (Size.make 200 90) eq_refl) None).
Defined.

(** The whole slide of the example host for the KPI tile and the chart. *)
Example presentation_examples_run :
  buildSlide Demo.host (Demo.dashboard "Q1 Report" [Demo.revenue; Demo.chartAB])
  = Ok [addText "Q1 Report"
          (TextOptions.make 0.5 0.3 9 0.8 24 "Arial" "#2563eb" (Some true) None);
        addText "1000 USD"
          (TextOptions.make (40 / 800 * 10) (45 / 450 * 5.6 + 1.2)
             (200 / 800 * 10) (90 / 450 * 5.6) 18 "Arial" "#2563eb"
             (Some true) (Some "center"));
        addText "Revenue"
          (TextOptions.make (40 / 800 * 10) (45 / 450 * 5.6 + 1.2 - 0.3)
             (200 / 800 * 10) 0.3 12 "Arial" "#111827" None None);
        addChart "bar" [Series.make "A" [Some 1]; Series.make "B" [Some 2]]
          (ChartOptions.make (0 / 800 * 10) (225 / 450 * 5.6 + 1.2)
             (400 / 800 * 10) (225 / 450 * 5.6) (Some "Sales"))].
Proof. reflexivity. Qed.

(** C6, as amended.  For a chart component whose [datasets] holds at least
    one dataset, the callback emits one bar chart built from the first
    dataset only, with the series labels[i] -> values: [data[i]]; when that
    dataset has no labels the series is empty; when the component has no
    [datasets] property nothing is emitted for it.  In each of these cases
    the callback does not throw.  When no chart of the dashboard has an
    empty [datasets], the slide is built and holds that bar chart, and the
    response of the export is decided by the write of the presentation and
    the object URL of its blob: the success response when both succeed, the
    failure response with the write's message when the write throws. *)
Theorem chart_series
  (host : Host) (dashboard : DashboardConfig.t) (slide : Slide)
  (canvas : Canvas) (component : Component.t) :
  Component.type component = "chart" ->
  (forall first others,
     ComponentData.datasets (Component.data component) = Some (first :: others) ->
     addComponent host dashboard slide component
     = Ok (slide ++ [addChart "bar" (chartSeries first) (chartOptions component)])%list /\
     (forall labels,
        Dataset.labels first = Some labels ->
        List.length (chartSeries first) = List.length labels /\
        forall i label,
          nth_error labels i = Some label ->
          nth_error (chartSeries first) i
          = Some {| Series.name := label;
                    Series.values := [nth_error (Dataset.data first) i] |}) /\
     (Dataset.labels first = None -> chartSeries first = [])) /\
  (ComponentData.datasets (Component.data component) = None ->
   addComponent host dashboard slide component = Ok slide) /\
  (In component (DashboardConfig.components dashboard) ->
   existsb hasEmptyDatasets (DashboardConfig.components dashboard) = false ->
   let built :=
     titleText dashboard
     :: flat_map (componentObjects host dashboard)
          (DashboardConfig.components dashboard) in
   buildSlide host dashboard = Ok built /\
   (forall first others,
      ComponentData.datasets (Component.data component) = Some (first :: others) ->
      In (addChart "bar" (chartSeries first) (chartOptions component)) built) /\
   (forall blob url,
      pptx_write host (Pptx.make "LAYOUT_16x9" [built]) "blob" = Ok blob ->
      createObjectURL host blob = Ok url ->
      exportDashboard host dashboard "pptx" canvas
      = Ok (succeeded url
              (fileStem (DashboardConfig.title dashboard) ++ ".pptx"))) /\
   (forall e,
      pptx_write host (Pptx.make "LAYOUT_16x9" [built]) "blob" = Throw e ->
      exportDashboard host dashboard "pptx" canvas
      = Ok (failed ("Export failed: " ++ message e)))).
Proof.
  intros Ht. split; [ | split ].
  - intros first others Hd. split; [ | split ].
    + apply (addComponent_chart _ _ _ _ first others); assumption.
    + intros labels Hl. unfold chartSeries, mapi. rewrite Hl. split.
      * apply mapi_from_length.
      * intros i label Hi.
        rewrite (mapi_from_nth_error _ _ _ _ _ Hi). reflexivity.
    + intros Hl. unfold chartSeries. rewrite Hl. reflexivity.
  - apply addComponent_chart_undefined; assumption.
  - intros Hin Hnone. cbv zeta.
    pose proof (buildSlide_objects host dashboard Hnone) as Hbuilt.
    split; [ exact Hbuilt | ]. split; [ | split ].
    + intros first others Hd.
      apply (buildSlide_holds host dashboard component _ Hin).
      unfold componentObjects, firstDataset. rewrite Ht, Hd.
      cbn [String.eqb Ascii.eqb Bool.eqb]. left. reflexivity.
    + intros blob url Hblob Hurl.
      apply (exportDashboard_pptx_written _ _ _ _ blob url Hbuilt Hblob Hurl).
    + intros e Hblob.
      apply (exportDashboard_pptx_refused _ _ _ _ e Hbuilt Hblob).
Qed.

Lemma chart_series_witness :
  addComponent Demo.host (Demo.dashboard "Q1 Report" [Demo.chartAB]) [] Demo.chartAB
  = Ok [addChart "bar" [Series.make "A" [Some 1]; Series.make "B" [Some 2]]
          (chartOptions Demo.chartAB)].
Proof.
  exact (proj1 (proj1 (chart_series Demo.host
                         (Demo.dashboard "Q1 Report" [Demo.chartAB]) []
                         Demo.canvas Demo.chartAB eq_refl)
                  (Dataset.make (Some ["A"; "B"]) [1; 2]) [] eq_refl)).
Defined.

(** C6, as stated, fails.  A chart component with no [datasets] property has
    no first dataset, and no chart, hence no series, is emitted for it; a
    chart component whose [datasets] is the empty array has no first dataset
    either, and the export fails. *)
Lemma chart_series_counterexample :
  (firstDataset Demo.chartNoDatasets = None /\
   Component.type Demo.chartNoDatasets = "chart" /\
   buildSlide Demo.host (Demo.dashboard "Q1 Report" [Demo.chartNoDatasets])
   = Ok [titleText (Demo.dashboard "Q1 Report" [Demo.chartNoDatasets])] /\
   buildSlide Demo.host (Demo.dashboard "Q1 Report" [Demo.chartNoDatasets])
   <> Ok [titleText (Demo.dashboard "Q1 Report" [Demo.chartNoDatasets]);
          addChart "bar" [] (chartOptions Demo.chartNoDatasets)]) /\
  (firstDataset Demo.chartEmptyDatasets = None /\
   Component.type Demo.chartEmptyDatasets = "chart" /\
   exportDashboard Demo.host (Demo.dashboard "Q1 Report" [Demo.chartEmptyDatasets])
     "pptx" Demo.canvas
   = Ok (failed
           "Export failed: Cannot read properties of undefined (reading 'labels')")).
Proof.
  repeat split. discriminate.
Qed.

(** ** The clipboard of the markup export *)

(** C7, as amended.  When the clipboard write of the markup export throws,
    the export returns the failure response whose text is Export failed:
    followed by the message of the clipboard's error, and no artifact; when
    the write and the encoding succeed, it returns the success response that
    carries the document. *)
Theorem clipboard_failure_fails_export
  (host : Host) (dashboard : DashboardConfig.t) (canvas : Canvas) (e : JsError) :
  clipboard_writeText host (generateHTMLCode host dashboard) = Throw e ->
  exportAsHTML host dashboard = Throw e /\
  exportDashboard host dashboard "html" canvas
  = Ok {| ExportResponse.success := false;
          ExportResponse.downloadUrl := None;
          ExportResponse.filename := None;
          ExportResponse.error := Some ("Export failed: " ++ message e) |}.
Proof.
  intros Hclip.
  assert (H : exportAsHTML host dashboard = Throw e).
  { unfold exportAsHTML. cbv zeta. rewrite Hclip. reflexivity. }
  split; [ exact H | ].
  unfold exportDashboard, dispatch. cbn [String.eqb Ascii.eqb Bool.eqb].
  rewrite H. reflexivity.
Qed.

Lemma clipboard_failure_fails_export_witness :
  exportDashboard Demo.clipboardDenied (Demo.dashboard "Q1 Report" [Demo.revenue])
    "html" Demo.canvas
  = Ok (failed "Export failed: Write permission denied.").
Proof.
  exact (proj2 (clipboard_failure_fails_export Demo.clipboardDenied
                  (Demo.dashboard "Q1 Report" [Demo.revenue]) Demo.canvas
                  (Error "Write permission denied.") eq_refl)).
Defined.

(** C7, as stated, fails: with a clipboard that refuses the write the markup
    export of a dashboard is a failure response, not a success carrying the
    document. *)
Lemma clipboard_failure_counterexample :
  clipboard_writeText Demo.clipboardDenied
    (generateHTMLCode Demo.clipboardDenied (Demo.dashboard "Q1 Report" [Demo.revenue]))
  = Throw (Error "Write permission denied.") /\
  exportDashboard Demo.clipboardDenied (Demo.dashboard "Q1 Report" [Demo.revenue])
    "html" Demo.canvas
  = Ok (failed "Export failed: Write permission denied.") /\
  (forall url name,
     exportDashboard Demo.clipboardDenied (Demo.dashboard "Q1 Report" [Demo.revenue])
       "html" Demo.canvas
     <> Ok (succeeded url name)).
Proof.
  repeat split. intros url name. discriminate.
Qed.

(** ** Components the presentation renderer skips or fails on *)

(** C8.  For a component whose type is neither chart nor kpi the callback
    emits nothing and does not throw; the slide and the response of the pptx
    export of a dashboard that holds it are those of the dashboard without
    it, and a dashboard made of that component alone exports with success
    as soon as the host writes the presentation. *)
Theorem unknown_component_skipped
  (host : Host) (dashboard : DashboardConfig.t) (slide : Slide)
  (component : Component.t) :
  Component.type component <> "chart" ->
  Component.type component <> "kpi" ->
  addComponent host dashboard slide component = Ok slide /\
  (forall title theme before after canvas,
     buildSlide host (DashboardConfig.make title theme (before ++ component :: after)%list)
     = buildSlide host (DashboardConfig.make title theme (before ++ after)%list) /\
     exportDashboard host
       (DashboardConfig.make title theme (before ++ component :: after)%list)
       "pptx" canvas
     = exportDashboard host
         (DashboardConfig.make title theme (before ++ after)%list) "pptx" canvas) /\
  (forall title theme canvas blob url,
     let alone := DashboardConfig.make title theme [component] in
     pptx_write host (Pptx.make "LAYOUT_16x9" [[titleText alone]]) "blob" = Ok blob ->
     createObjectURL host blob = Ok url ->
     exportDashboard host alone "pptx" canvas
     = Ok (succeeded url (fileStem title ++ ".pptx"))).
Proof.
  intros Hc Hk.
  assert (Hskip : forall d s, addComponent host d s component = Ok s).
  { intros d s. apply addComponent_other; assumption. }
  split; [ apply Hskip | ].
  assert (Hslide : forall title theme before after,
    buildSlide host (DashboardConfig.make title theme (before ++ component :: after)%list)
    = buildSlide host (DashboardConfig.make title theme (before ++ after)%list)).
  { intros title theme before after. unfold buildSlide.
    cbn [DashboardConfig.components]. rewrite !forEach_app.
    change (addComponent host (DashboardConfig.make title theme
                                 (before ++ component :: after)%list))
      with (addComponent host (DashboardConfig.make title theme
                                 (before ++ after)%list)).
    change (titleText (DashboardConfig.make title theme
                         (before ++ component :: after)%list))
      with (titleText (DashboardConfig.make title theme (before ++ after)%list)).
    destruct (forEach _ before _) as [s | e | v]; cbn [bind forEach];
      [ | reflexivity | reflexivity ].
    rewrite Hskip. reflexivity. }
  split.
  - intros title theme before after canvas. split; [ apply Hslide | ].
    unfold exportDashboard, dispatch. cbn [String.eqb Ascii.eqb Bool.eqb].
    unfold exportAsPowerPoint. rewrite Hslide. reflexivity.
  - intros title theme canvas blob url alone Hblob Hurl.
    unfold exportDashboard, dispatch. cbn [String.eqb Ascii.eqb Bool.eqb].
    unfold exportAsPowerPoint, buildSlide. subst alone.
    cbn [DashboardConfig.components forEach]. rewrite Hskip. cbn [bind forEach].
    cbv zeta. unfold Slide in *. rewrite Hblob. cbn [bind]. rewrite Hurl. reflexivity.
Qed.

Lemma unknown_component_skipped_witness :
  exportDashboard Demo.host (Demo.dashboard "Q1 Report" [Demo.revenue; Demo.table])
    "pptx" Demo.canvas
  = exportDashboard Demo.host (Demo.dashboard "Q1 Report" [Demo.revenue])
      "pptx" Demo.canvas.
Proof.
  assert (Hc : Component.type Demo.table <> "chart") by discriminate.
  assert (Hk : Component.type Demo.table <> "kpi") by discriminate.
  exact (proj2 (proj1 (proj2 (unknown_component_skipped Demo.host
                                (Demo.dashboard "Q1 Report" []) [] Demo.table Hc Hk))
                  "Q1 Report" Demo.theme [Demo.revenue] [] Demo.canvas)).
Defined.

(** C9.  When a component of the dashboard has type chart and a [datasets]
    that is present and empty, the slide is not built: reading [labels] from
    the first dataset, which is [undefined], throws, and the pptx export is
    the failure response whose text is Export failed: followed by that
    error's message. *)
Theorem empty_datasets_fail_export
  (host : Host) (dashboard : DashboardConfig.t) (canvas : Canvas)
  (component : Component.t) :
  In component (DashboardConfig.components dashboard) ->
  Component.type component = "chart" ->
  ComponentData.datasets (Component.data component) = Some [] ->
  buildSlide host dashboard = Throw (readOfUndefined host "labels") /\
  exportAsPowerPoint host dashboard = Throw (readOfUndefined host "labels") /\
  exportDashboard host dashboard "pptx" canvas
  = Ok {| ExportResponse.success := false;
          ExportResponse.downloadUrl := None;
          ExportResponse.filename := None;
          ExportResponse.error :=
            Some ("Export failed: " ++ message (readOfUndefined host "labels")) |}.
Proof.
  intros Hin Ht Hd.
  assert (Hslide : buildSlide host dashboard = Throw (readOfUndefined host "labels")).
  { unfold buildSlide. apply (forEach_throws _ _ component); [ exact Hin | | | ].
    - intros s0. apply addComponent_chart_empty; assumption.
    - intros s0 a0 e0. apply addComponent_throws.
    - intros s0 a0 v. apply addComponent_never_unreadable. }
  assert (Hpptx : exportAsPowerPoint host dashboard
                  = Throw (readOfUndefined host "labels")).
  { unfold exportAsPowerPoint. rewrite Hslide. reflexivity. }
  repeat split; [ exact Hslide | exact Hpptx | ].
  unfold exportDashboard, dispatch. cbn [String.eqb Ascii.eqb Bool.eqb].
  rewrite Hpptx. reflexivity.
Qed.

Lemma empty_datasets_fail_export_witness :
  exportDashboard Demo.host
    (Demo.dashboard "Q1 Report" [Demo.revenue; Demo.chartEmptyDatasets; Demo.table])
    "pptx" Demo.canvas
  = Ok (failed "Export failed: Cannot read properties of undefined (reading 'labels')").
Proof.
  assert (Hin : In Demo.chartEmptyDatasets
                  [Demo.revenue; Demo.chartEmptyDatasets; Demo.table])
    by (simpl; tauto).
  exact (proj2 (proj2 (empty_datasets_fail_export Demo.host
                         (Demo.dashboard "Q1 Report"
                            [Demo.revenue; Demo.chartEmptyDatasets; Demo.table])
                         Demo.canvas Demo.chartEmptyDatasets Hin eq_refl eq_refl))).
Defined.

(** ** The text of a KPI tile *)

(** C10.  The text of a KPI tile is always the value, one space, and the unit
    or the empty string.  For a kpi component with no unit it is therefore
    the value followed by one space, which is not the bare value.  That text
    is what the callback of the presentation renderer puts in the tile's
    text box and what the block of the markup renderer ends with, in the
    tile's kpi-value element.  For a component of the dashboard the element
    is part of the generated document, which is the document the successful
    html export encodes into its data URL; and when no chart of the
    dashboard has an empty [datasets], the text box is on the slide of the
    presentation that the successful pptx export writes. *)
Theorem kpi_text_trailing_space
  (host : Host) (dashboard : DashboardConfig.t) (slide : Slide)
  (canvas : Canvas) (component : Component.t) :
  Component.type component = "kpi" ->
  let value := valueToString host (ComponentData.value (Component.data component)) in
  let text :=
    value ++ " " ++ match ComponentData.unit (Component.data component) with
                    | Some unit => unit
                    | None => EmptyString
                    end in
  let element := "<div class=" ++ quoted "kpi-value" ++ ">" ++ text ++ "</div>" in
  let box :=
    addText text
      {| TextOptions.x := slideX component;
         TextOptions.y := slideY component;
         TextOptions.w := slideW component;
         TextOptions.h := slideH component;
         TextOptions.fontSize := 18;
         TextOptions.fontFace := "Arial";
         TextOptions.color := Theme.primaryColor (DashboardConfig.theme dashboard);
         TextOptions.bold := Some true;
         TextOptions.align := Some "center" |} in
  let html := generateHTMLCode host dashboard in
  kpiText host component = text /\
  (ComponentData.unit (Component.data component) = None ->
   text = value ++ " " /\ text <> value) /\
  (exists rest,
     addComponent host dashboard slide component = Ok (slide ++ box :: rest)%list) /\
  (exists before,
     componentHTML host component
     = before ++ element ++ LF ++ "        </div>" ++ LF ++ "        ") /\
  (In component (DashboardConfig.components dashboard) ->
   occursIn element html /\
   (forall written encoded,
      clipboard_writeText host html = Ok written ->
      encodeURIComponent host html = Ok encoded ->
      exportDashboard host dashboard "html" canvas
      = Ok (succeeded ("data:text/html;charset=utf-8," ++ encoded)
              "dashboard.html")) /\
   (existsb hasEmptyDatasets (DashboardConfig.components dashboard) = false ->
    exists built,
      buildSlide host dashboard = Ok built /\ In box built /\
      forall blob url,
        pptx_write host (Pptx.make "LAYOUT_16x9" [built]) "blob" = Ok blob ->
        createObjectURL host blob = Ok url ->
        exportDashboard host dashboard "pptx" canvas
        = Ok (succeeded url
                (fileStem (DashboardConfig.title dashboard) ++ ".pptx")))).
Proof.
  intros Ht value text element box html.
  assert (Htext : kpiText host component = text).
  { unfold kpiText, text, value, orEmpty.
    destruct (ComponentData.unit (Component.data component)) as [[| c u] |];
      reflexivity. }
  assert (Hblock : exists before,
             componentHTML host component
             = before ++ element ++ LF ++ "        </div>" ++ LF ++ "        ").
  { unfold componentHTML, element. rewrite Ht, Htext.
    cbn [String.eqb Ascii.eqb Bool.eqb].
    exists (LF ++ "        <div class=" ++ quoted "component" ++ " style="
            ++ dquote ++ LF ++
            "            left: " ++ NumberToString host (leftPercent component)
            ++ "%;" ++ LF ++
            "            top: " ++ NumberToString host (topPercent component)
            ++ "%;" ++ LF ++
            "            width: " ++ NumberToString host (widthPercent component)
            ++ "%;" ++ LF ++
            "            height: " ++ NumberToString host (heightPercent component)
            ++ "%;" ++ LF ++
            "        " ++ dquote ++ ">" ++ LF ++
            "            " ++
            (match Component.title component with
             | Some title =>
                 if truthy (Some title)
                 then "<div class=" ++ quoted "component-title" ++ ">"
                      ++ title ++ "</div>"
                 else EmptyString
             | None => EmptyString
             end) ++ LF ++
            "            ").
    repeat rewrite append_assoc. reflexivity. }
  split; [ exact Htext | ]. split; [ | split; [ | split; [ exact Hblock | ] ] ].
  - intros Hu. unfold text. rewrite Hu. split; [ reflexivity | ].
    intros Heq. apply (f_equal String.length) in Heq.
    rewrite append_length in Heq. simpl in Heq. lia.
  - rewrite (addComponent_kpi host dashboard slide component Ht).
    unfold kpiBox. rewrite Htext. eexists. reflexivity.
  - intros Hin. split; [ | split ].
    + apply (occursIn_trans _ (componentHTML host component)).
      * destruct Hblock as [before Hb]. exists before. eexists. exact Hb.
      * apply generateHTMLCode_block. exact Hin.
    + intros written encoded. apply exportDashboard_html_written.
    + intros Hnone. eexists. split; [ apply buildSlide_objects; exact Hnone | ].
      split.
      * apply (buildSlide_holds host dashboard component _ Hin).
        unfold componentObjects. rewrite Ht.
        cbn [String.eqb Ascii.eqb Bool.eqb]. left.
        unfold kpiBox. rewrite Htext. reflexivity.
      * intros blob url.
        apply exportDashboard_pptx_written. apply buildSlide_objects. exact Hnone.
Qed.

Lemma kpi_text_trailing_space_witness :
  kpiText Demo.host Demo.visitors = "42 ".
Proof.
  exact (proj1 (kpi_text_trailing_space Demo.host
                  (Demo.dashboard "Q1 Report" [Demo.visitors]) []
                  Demo.canvas Demo.visitors eq_refl)).
Defined.

(** The tile with no unit on the example host, in both exports. *)
Example kpi_text_trailing_space_run :
  buildSlide Demo.host (Demo.dashboard "Q1 Report" [Demo.visitors])
  = Ok [titleText (Demo.dashboard "Q1 Report" [Demo.visitors]);
        addText "42 "
          (TextOptions.make (280 / 800 * 10) (45 / 450 * 5.6 + 1.2)
             (200 / 800 * 10) (90 / 450 * 5.6) 18 "Arial" "#2563eb"
             (Some true) (Some "center"));
        kpiTitleBox (Demo.dashboard "Q1 Report" [Demo.visitors]) Demo.visitors
          "Visitors"] /\
  componentHTML Demo.host Demo.visitors
  = unlines [
      EmptyString;
      "        <div class=" ++ quoted "component" ++ " style=" ++ dquote;
      "            left: 35%;";
      "            top: 10%;";
      "            width: 25%;";
      "            height: 20%;";
      "        " ++ dquote ++ ">";
      "            <div class=" ++ quoted "component-title" ++ ">Visitors</div>";
      "            <div class=" ++ quoted "kpi-value" ++ ">42 </div>";
      "        </div>";
      "        " ].
Proof. split; reflexivity. Qed.

(** * Further properties of the service *)

(** ** The stem of a file name (lines 82 and 146) *)

Lemma toLowerCase_char_idempotent (c : ascii) :
  toLowerCase_char (toLowerCase_char c) = toLowerCase_char c.
Proof. destruct c as [[] [] [] [] [] [] [] []]; reflexivity. Qed.

Lemma toLowerCase_idempotent (s : string) :
  toLowerCase (toLowerCase s) = toLowerCase s.
Proof.
  induction s as [| c s IH]; simpl; [ reflexivity | ].
  rewrite toLowerCase_char_idempotent, IH. reflexivity.
Qed.

Lemma replaceWhitespace_from_toLowerCase (s : string) (inRun : bool) :
  replaceWhitespace_from inRun (toLowerCase s)
  = toLowerCase (replaceWhitespace_from inRun s).
Proof.
  revert inRun. induction s as [| c s IH]; intros inRun; simpl; [ reflexivity | ].
  rewrite isWhiteSpace_toLowerCase_char.
  destruct (isWhiteSpace c); [ destruct inRun | ]; simpl; rewrite IH; reflexivity.
Qed.

(** X1.  The stem is a normal form: deriving the stem of a stem changes
    nothing. *)
Theorem fileStem_idempotent (title : string) :
  fileStem (fileStem title) = fileStem title.
Proof.
  unfold fileStem, replaceWhitespace.
  rewrite replaceWhitespace_from_toLowerCase.
  rewrite (replaceWhitespace_from_id (replaceWhitespace_from false title) false)
    by apply noWhiteSpace_replaceWhitespace_from.
  apply toLowerCase_idempotent.
Qed.

Lemma replaceWhitespace_from_cons (inRun : bool) (c : ascii) (s : string) :
  replaceWhitespace_from inRun (String c s)
  = if isWhiteSpace c
    then if inRun
         then replaceWhitespace_from true s
         else String "_" (replaceWhitespace_from true s)
    else String c (replaceWhitespace_from false s).
Proof. reflexivity. Qed.

Lemma replaceWhitespace_from_whiteSpaceRun (s : string) :
  whiteSpaceRun s = true ->
  replaceWhitespace_from true s = EmptyString /\
  replaceWhitespace_from false s = "_".
Proof.
  induction s as [| c s IH]; [ discriminate | ].
  destruct s as [| c' s'].
  - simpl. intros ->. split; reflexivity.
  - intros H.
    assert (Hc : isWhiteSpace c = true /\ whiteSpaceRun (String c' s') = true).
    { apply andb_true_iff. exact H. }
    destruct Hc as [Hc Hs]. destruct (IH Hs) as [IHt _].
    rewrite !(replaceWhitespace_from_cons _ c), Hc, IHt. split; reflexivity.
Qed.

(** X2.  The stem is empty only for the empty title, and a title made of
    white space alone has the stem that is one underscore. *)
Theorem fileStem_empty (title : string) :
  (fileStem title = EmptyString <-> title = EmptyString) /\
  (whiteSpaceRun title = true -> fileStem title = "_").
Proof.
  unfold fileStem, replaceWhitespace. repeat split.
  - destruct title as [| c s]; [ reflexivity | ].
    simpl. destruct (isWhiteSpace c); discriminate.
  - intros ->. reflexivity.
  - intros H. destruct (replaceWhitespace_from_whiteSpaceRun title H) as [_ ->].
    reflexivity.
Qed.

Lemma replaceWhitespace_from_ends (s : string) :
  endsWithWhiteSpace s = true ->
  (exists before, replaceWhitespace_from false s = before ++ "_") /\
  (replaceWhitespace_from true s = EmptyString \/
   exists before, replaceWhitespace_from true s = before ++ "_").
Proof.
  induction s as [| c s IH]; [ discriminate | ].
  destruct s as [| c' s'].
  - simpl. intros ->. split; [ exists EmptyString; reflexivity | left; reflexivity ].
  - intros H. assert (H' : endsWithWhiteSpace (String c' s') = true) by exact H.
    destruct (IH H') as [[bf Hf] Ht].
    rewrite !(replaceWhitespace_from_cons _ c). destruct (isWhiteSpace c).
    + split.
      * destruct Ht as [-> | [bt ->]];
          [ exists EmptyString | exists (String "_" bt) ]; reflexivity.
      * exact Ht.
    + rewrite Hf. split; [ | right ]; exists (String c bf); reflexivity.
Qed.

(** X3.  Leading and trailing white space is not trimmed: a title that
    starts with white space has a stem that starts with an underscore, and a
    title that ends with white space has a stem that ends with one. *)
Theorem fileStem_not_trimmed (title : string) :
  (startsWithWhiteSpace title = true ->
   exists rest, fileStem title = "_" ++ rest) /\
  (endsWithWhiteSpace title = true ->
   exists before, fileStem title = before ++ "_").
Proof.
  unfold fileStem, replaceWhitespace. split.
  - destruct title as [| c s]; [ discriminate | ].
    simpl. intros ->. eexists. reflexivity.
  - intros H. destruct (replaceWhitespace_from_ends title H) as [[before ->] _].
    exists (toLowerCase before). rewrite toLowerCase_app. reflexivity.
Qed.

(** ** The image box is the largest one (lines 61-72) *)

Local Open Scope Q_scope.

(** X4.  On any page larger than its margins the image box has positive
    sides, touches the margins in width or in height, and no box of ratio
    16:9 that fits inside the margins is wider or higher. *)
Theorem imageBox_largest (W H w h : Q) :
  20 < W -> 20 < H ->
  0 < h -> w / h == 16 / 9 -> w <= W - 20 -> h <= H - 20 ->
  let b := imageBox W H in
  0 < Box.imgWidth b /\ 0 < Box.imgHeight b /\
  (Box.imgWidth b == W - 20 \/ Box.imgHeight b == H - 20) /\
  w <= Box.imgWidth b /\ h <= Box.imgHeight b.
Proof.
  intros HW HH Hh Hratio Hw Hhh. unfold imageBox.
  assert (Ew : w == (16 # 9) * h).
  { rewrite <- (Qmult_div_r w h) by lra. rewrite Hratio. field. }
  assert (E : forall q, q / aspectRatio == q * (9 # 16)).
  { intros q. unfold aspectRatio. field. }
  assert (A : aspectRatio == 16 # 9) by reflexivity.
  destruct (Qlt_le_dec (H - 20) ((W - 20) / aspectRatio)) as [Hlt | Hle];
    cbv zeta; cbn [Box.imgWidth Box.imgHeight];
    rewrite E in *; rewrite ?E, ?A; repeat split; lra.
Qed.

Lemma imageBox_largest_witness :
  277 <= Box.imgWidth (imageBox pdfWidth pdfHeight) /\
  (277 * (9 # 16)) <= Box.imgHeight (imageBox pdfWidth pdfHeight).
Proof.
  assert (HW : 20 < pdfWidth) by (unfold pdfWidth; lra).
  assert (HH : 20 < pdfHeight) by (unfold pdfHeight; lra).
  assert (Hh : 0 < 277 * (9 # 16)) by lra.
  assert (Hr : 277 / (277 * (9 # 16)) == 16 / 9) by reflexivity.
  assert (Hw : 277 <= pdfWidth - 20) by (unfold pdfWidth; lra).
  assert (Hhh : 277 * (9 # 16) <= pdfHeight - 20) by (unfold pdfHeight; lra).
  exact (proj2 (proj2 (proj2 (imageBox_largest pdfWidth pdfHeight 277
                                (277 * (9 # 16)) HW HH Hh Hr Hw Hhh)))).
Defined.

Local Close Scope Q_scope.

(** ** The geometry of the slide (lines 103-106) *)

Lemma pairSums_checked_ok (f g : nat -> float) (n : nat) (bound : float) :
  pairSums_checked f g n bound = true ->
  forall a b, (a + b <= n)%nat -> leb (f a + g b) bound = true.
Proof.
  unfold pairSums_checked. cbv zeta. intros H a b Hab.
  rewrite forallb_forall in H.
  assert (Ha : In (a, f a) (combine (seq 0 (S n)) (map f (seq 0 (S n))))).
  { assert (E : nth a (combine (seq 0 (S n)) (map f (seq 0 (S n))))
                  (0%nat, f 0%nat) = (a, f a)).
    { rewrite combine_nth by (rewrite length_map; reflexivity).
      rewrite (map_nth f (seq 0 (S n)) 0%nat a).
      rewrite seq_nth by lia. reflexivity. }
    rewrite <- E. apply nth_In.
    rewrite length_combine, length_map, length_seq. lia. }
  specialize (H _ Ha). cbn [fst snd] in H. rewrite forallb_forall in H.
  apply H. rewrite firstn_map, firstn_seq_le by lia.
  apply in_map. apply in_seq. lia.
Qed.

Lemma slideEdges_checked_ok : slideEdges_checked = true.
Proof. vm_compute. reflexivity. Qed.

Lemma slideRight_checked_ok : slideRight_checked = true.
Proof. vm_compute. reflexivity. Qed.

Lemma slideBottom_checked_ok : slideBottom_checked = true.
Proof. vm_compute. reflexivity. Qed.

(** X5.  For a component whose position and size are whole numbers within
    the canvas, the box the presentation renderer computes has its left edge
    at 0 or more, its top edge at 1.2 or more, and a width and a height that
    are not negative; its right edge x + w, as binary64 adds it, is at most
    10.000000000000002 and its bottom edge y + h at most 6.800000000000001:
    the box leaves the area 10 wide that ends at 6.8 by one rounding step at
    most. *)
Theorem slide_geometry_within_content (component : Component.t) (x y w h : nat) :
  onGrid component x y w h ->
  leb 0 (slideX component) = true /\
  leb 1.2 (slideY component) = true /\
  leb 0 (slideW component) = true /\
  leb 0 (slideH component) = true /\
  leb (slideX component + slideW component) 10.000000000000002 = true /\
  leb (slideY component + slideH component) 6.800000000000001 = true.
Proof.
  intros (Hxw & Hyh & Hp & Hs).
  unfold slideX, slideY, slideW, slideH. rewrite Hp, Hs.
  cbn [Position.x Position.y Size.width Size.height].
  change (wholeNumber (Z.of_nat x) / 800 * 10) with (slideXOf x).
  change (wholeNumber (Z.of_nat w) / 800 * 10) with (slideXOf w).
  change (wholeNumber (Z.of_nat y) / 450 * 5.6 + 1.2) with (slideYOf y).
  change (wholeNumber (Z.of_nat h) / 450 * 5.6) with (slideHOf h).
  pose proof slideEdges_checked_ok as He. unfold slideEdges_checked in He.
  apply andb_true_iff in He as [Hxs Hys].
  rewrite forallb_forall in Hxs, Hys.
  assert (Hx : In x (seq 0 801)) by (apply in_seq; lia).
  assert (Hw : In w (seq 0 801)) by (apply in_seq; lia).
  assert (Hy : In y (seq 0 451)) by (apply in_seq; lia).
  assert (Hh : In h (seq 0 451)) by (apply in_seq; lia).
  apply Hys in Hy, Hh.
  apply andb_true_iff in Hy as [Hy _]. apply andb_true_iff in Hh as [_ Hh].
  split; [ apply Hxs; exact Hx | ]. split; [ exact Hy | ].
  split; [ apply Hxs; exact Hw | ]. split; [ exact Hh | ].
  split.
  - apply (pairSums_checked_ok slideXOf slideXOf 800 _ slideRight_checked_ok).
    exact Hxw.
  - apply (pairSums_checked_ok slideYOf slideHOf 450 _ slideBottom_checked_ok).
    exact Hyh.
Qed.

Lemma slide_geometry_within_content_witness :
  leb (slideX Demo.wide + slideW Demo.wide) 10.000000000000002 = true.
Proof.
  assert (Hgrid : onGrid Demo.wide 7 0 793 450).
  { unfold onGrid. repeat split; try (vm_compute; reflexivity); lia. }
  exact (proj1 (proj2 (proj2 (proj2 (proj2
           (slide_geometry_within_content Demo.wide 7 0 793 450 Hgrid)))))).
Defined.

(** The rounding step is used: the box of the component at x = 2 of width
    798 ends right of 10, and the box at y = 4 of height 446 below 6.8. *)
Example slide_geometry_rounding :
  slideXOf 2 + slideXOf 798 = 10.000000000000002 /\
  ltb 10 (slideXOf 2 + slideXOf 798) = true /\
  slideYOf 4 + slideHOf 446 = 6.800000000000001 /\
  ltb 6.8 (slideYOf 4 + slideHOf 446) = true.
Proof. repeat split; vm_compute; reflexivity. Qed.

(** ** The slide as a function of the components (lines 102-138) *)

(** X7.  The slide is built exactly when no chart component has an empty
    [datasets]: it is then the title box followed by the objects of each
    component, in the order of the components; otherwise the loop throws the
    TypeError of the read of [labels], whatever else the dashboard holds. *)
Theorem buildSlide_characterised (host : Host) (dashboard : DashboardConfig.t) :
  let components := DashboardConfig.components dashboard in
  (existsb hasEmptyDatasets components = false ->
   buildSlide host dashboard
   = Ok (titleText dashboard
         :: flat_map (componentObjects host dashboard) components)) /\
  (existsb hasEmptyDatasets components = true ->
   buildSlide host dashboard = Throw (readOfUndefined host "labels")).
Proof.
  cbv zeta. split.
  - apply buildSlide_objects.
  - apply buildSlide_throws.
Qed.

(** X8.  The pptx export is a success response if and only if no chart
    component has an empty [datasets] and the host both writes the
    presentation (layout LAYOUT_16x9, one slide: the title box and the
    components' objects in order) and gives its blob an object URL. *)
Theorem pptx_success_iff
  (host : Host) (dashboard : DashboardConfig.t) (canvas : Canvas) :
  isSuccess (exportDashboard host dashboard "pptx" canvas) <->
  existsb hasEmptyDatasets (DashboardConfig.components dashboard) = false /\
  exists blob url,
    pptx_write host
      (Pptx.make "LAYOUT_16x9"
         [titleText dashboard
          :: flat_map (componentObjects host dashboard)
               (DashboardConfig.components dashboard)]) "blob" = Ok blob /\
    createObjectURL host blob = Ok url.
Proof.
  unfold isSuccess, exportDashboard, dispatch.
  cbn [String.eqb Ascii.eqb Bool.eqb]. unfold exportAsPowerPoint.
  destruct (existsb hasEmptyDatasets (DashboardConfig.components dashboard)) eqn:He.
  - rewrite (buildSlide_throws _ _ He). cbn [bind try_catch readMessage throw]. split.
    + intros (url & name & H). discriminate H.
    + intros [H _]. discriminate H.
  - rewrite (buildSlide_objects _ _ He).
    cbn [bind]. cbv zeta. unfold Slide in *.
    destruct (pptx_write host _ "blob") as [blob | e | v];
      cbn [bind try_catch readMessage throw].
    + destruct (createObjectURL host blob) as [url | e | v] eqn:Hu;
        cbn [bind try_catch readMessage throw].
      * split; [ intros _; split; [ reflexivity | ]; eauto | eauto ].
      * split; [ intros (u & n & H); discriminate H | ].
        intros [_ (b & u & [= <-] & Hu')]. congruence.
      * split; [ intros (u & n & H); destruct v; cbn [throw bind] in H; discriminate H | ].
        intros [_ (b & u & [= <-] & Hu')]. congruence.
    + split; [ intros (u & n & H); discriminate H | ].
      intros [_ (b & u & H & _)]. discriminate H.
    + split; [ intros (u & n & H); destruct v; cbn [throw bind] in H; discriminate H | ].
      intros [_ (b & u & H & _)]. discriminate H.
Qed.

(** ** The title box of a KPI tile (lines 93-99 and 129-135) *)

Lemma titleRows_checked_ok : titleRows_checked = true.
Proof. vm_compute. reflexivity. Qed.

(** X9.  For a kpi component with a non-empty title the callback adds the
    KPI box and then its title box, at the same x and width; the title box
    is 0.3 high and its top edge is the KPI box's minus 0.3.  When the
    component's y on the canvas is a whole number from 0 to 450, the bottom
    edge of the title box, as binary64 adds it, is the top edge of the KPI
    box, and the title box reaches above the lower edge of the dashboard's
    title box (0.3 + 0.8) exactly when that y is at most 16. *)
Theorem kpi_title_box_position
  (host : Host) (dashboard : DashboardConfig.t) (slide : Slide)
  (component : Component.t) (title : string) :
  Component.type component = "kpi" ->
  Component.title component = Some title ->
  title <> EmptyString ->
  exists kpiOptions titleOptions bandOptions,
    addComponent host dashboard slide component
    = Ok (slide ++ [addText (kpiText host component) kpiOptions;
                    addText title titleOptions])%list /\
    titleText dashboard = addText (DashboardConfig.title dashboard) bandOptions /\
    TextOptions.x titleOptions = TextOptions.x kpiOptions /\
    TextOptions.w titleOptions = TextOptions.w kpiOptions /\
    TextOptions.y titleOptions = TextOptions.y kpiOptions - 0.3 /\
    TextOptions.h titleOptions = 0.3 /\
    (forall y : nat,
       (y <= 450)%nat ->
       Position.y (Component.position component) = wholeNumber (Z.of_nat y) ->
       PrimFloat.eqb (TextOptions.y titleOptions + TextOptions.h titleOptions)
         (TextOptions.y kpiOptions) = true /\
       (PrimFloat.ltb (TextOptions.y titleOptions)
          (TextOptions.y bandOptions + TextOptions.h bandOptions) = true
        <-> (y <= 16)%nat)).
Proof.
  intros Ht Htitle Hne.
  assert (Htruthy : truthy (Some title) = true).
  { destruct title; [ congruence | reflexivity ]. }
  rewrite (addComponent_kpi host dashboard slide component Ht), Htitle, Htruthy.
  unfold kpiBox, kpiTitleBox, titleText.
  do 3 eexists. split; [ reflexivity | ]. split; [ reflexivity | ].
  cbn [TextOptions.x TextOptions.y TextOptions.w TextOptions.h].
  split; [ reflexivity | ]. split; [ reflexivity | ].
  split; [ reflexivity | ]. split; [ reflexivity | ].
  intros y Hy Hpos. unfold slideY. rewrite Hpos.
  pose proof titleRows_checked_ok as H.
  unfold titleRows_checked in H. rewrite forallb_forall in H.
  assert (Hin : In y (seq 0 451)) by (apply in_seq; lia).
  apply H in Hin. apply andb_true_iff in Hin as [Hedge Hband].
  unfold slideYOf in Hedge, Hband. split; [ exact Hedge | ].
  apply eqb_prop in Hband. rewrite Hband. apply Nat.leb_le.
Qed.

Lemma kpi_title_box_position_witness :
  exists kpiOptions titleOptions,
    addComponent Demo.host (Demo.dashboard "Q1 Report" [Demo.revenue]) []
      Demo.revenue
    = Ok [addText "1000 USD" kpiOptions; addText "Revenue" titleOptions] /\
    TextOptions.y titleOptions = TextOptions.y kpiOptions - 0.3.
Proof.
  assert (Hne : "Revenue" <> EmptyString) by discriminate.
  destruct (kpi_title_box_position Demo.host
              (Demo.dashboard "Q1 Report" [Demo.revenue]) [] Demo.revenue
              "Revenue" eq_refl eq_refl Hne)
    as (k & t & b & Hadd & _ & _ & _ & Hedge & _).
  exists k, t. split; [ exact Hadd | exact Hedge ].
Defined.

(** ** Labels and data of unequal length (lines 112-115) *)

Lemma mapi_from_ext {A B : Type} (f g : A -> nat -> B) (l : list A) (i : nat) :
  (forall k a, nth_error l k = Some a -> f a (i + k)%nat = g a (i + k)%nat) ->
  mapi_from i f l = mapi_from i g l.
Proof.
  revert i. induction l as [| a l IH]; intros i H; simpl; [ reflexivity | ].
  f_equal.
  - specialize (H 0%nat a eq_refl). rewrite Nat.add_0_r in H. exact H.
  - apply IH. intros k b Hk. specialize (H (S k) b Hk).
    replace (S i + k)%nat with (i + S k)%nat by lia. exact H.
Qed.

(** X10.  The series follow the labels, not the data: a label with no data
    point at its index gets the value [undefined], and data points beyond
    the last label are not used. *)
Theorem chartSeries_unequal_lengths (labels : list string) (data : list float) :
  (forall i label,
     nth_error labels i = Some label ->
     (List.length data <= i)%nat ->
     nth_error (chartSeries (Dataset.make (Some labels) data)) i
     = Some {| Series.name := label; Series.values := [None] |}) /\
  (forall surplus,
     (List.length labels <= List.length data)%nat ->
     chartSeries (Dataset.make (Some labels) (data ++ surplus)%list)
     = chartSeries (Dataset.make (Some labels) data)).
Proof.
  unfold chartSeries, mapi. cbn [Dataset.labels Dataset.data]. split.
  - intros i label Hi Hlen.
    rewrite (mapi_from_nth_error _ _ _ _ _ Hi). cbn [Nat.add].
    apply nth_error_None in Hlen. rewrite Hlen. reflexivity.
  - intros surplus Hlen. apply mapi_from_ext.
    intros k label Hk. cbn [Nat.add].
    rewrite nth_error_app1; [ reflexivity | ].
    assert (Hk' : (k < List.length labels)%nat).
    { apply nth_error_Some. rewrite Hk. discriminate. }
    lia.
Qed.

(** ** The markup of a component that is not a KPI tile (lines 216-220) *)

Lemma componentHTML_data host (component : Component.t) (data : ComponentData.t) :
  Component.type component <> "kpi" ->
  componentHTML host
    (Component.make (Component.id component) (Component.type component)
       (Component.title component) (Component.position component)
       (Component.size component) data)
  = componentHTML host component.
Proof.
  intros Ht. apply String.eqb_neq in Ht.
  destruct component as [id type title position size data0].
  cbn [Component.type] in Ht.
  unfold componentHTML, leftPercent, topPercent, widthPercent, heightPercent.
  cbn [Component.id Component.type Component.title Component.position
       Component.size Component.data].
  rewrite Ht. reflexivity.
Qed.

Lemma componentHTML_canvas host (component : Component.t) :
  Component.type component <> "kpi" ->
  exists before,
    componentHTML host component
    = before ++ "<canvas id=" ++ quoted ("chart-" ++ Component.id component)
      ++ "></canvas>" ++ LF ++ "        </div>" ++ LF ++ "        ".
Proof.
  intros Ht. apply String.eqb_neq in Ht.
  unfold componentHTML. rewrite Ht.
  exists (LF ++
  "        <div class=" ++ quoted "component" ++ " style=" ++ dquote ++ LF ++
  "            left: " ++ NumberToString host (leftPercent component) ++ "%;" ++ LF ++
  "            top: " ++ NumberToString host (topPercent component) ++ "%;" ++ LF ++
  "            width: " ++ NumberToString host (widthPercent component) ++ "%;" ++ LF ++
  "            height: " ++ NumberToString host (heightPercent component) ++ "%;" ++ LF ++
  "        " ++ dquote ++ ">" ++ LF ++
  "            " ++
  (match Component.title component with
   | Some title =>
       if truthy (Some title)
       then "<div class=" ++ quoted "component-title" ++ ">" ++ title ++ "</div>"
       else EmptyString
   | None => EmptyString
   end) ++ LF ++
  "            ").
  repeat rewrite append_assoc. reflexivity.
Qed.

(** X11.  The markup never shows the data of a component that is not a KPI
    tile: whatever its type and its data, its block ends with an empty
    canvas element whose id is chart- followed by the component's id, and
    replacing the data leaves the block unchanged. *)
Theorem markup_placeholder
  (host : Host) (component : Component.t) (data : ComponentData.t) :
  Component.type component <> "kpi" ->
  componentHTML host
    (Component.make (Component.id component) (Component.type component)
       (Component.title component) (Component.position component)
       (Component.size component) data)
  = componentHTML host component /\
  exists before,
    componentHTML host component
    = before ++ "<canvas id=" ++ quoted ("chart-" ++ Component.id component)
      ++ "></canvas>" ++ LF ++ "        </div>" ++ LF ++ "        ".
Proof.
  intros Ht. split.
  - apply componentHTML_data. exact Ht.
  - apply componentHTML_canvas. exact Ht.
Qed.

Lemma markup_placeholder_witness :
  componentHTML Demo.host Demo.table
  = componentHTML Demo.host
      (Component.make "table-1" "table" (Some "Orders")
         (Position.make 400 0) (Size.make 400 225)
         (ComponentData.make (Some [Dataset.make (Some ["A"]) [7]])
            (Some (VString "n/a")) (Some "pcs"))).
Proof.
  assert (Ht : Component.type Demo.table <> "kpi") by discriminate.
  exact (eq_sym (proj1 (markup_placeholder Demo.host Demo.table
                          (ComponentData.make (Some [Dataset.make (Some ["A"]) [7]])
                             (Some (VString "n/a")) (Some "pcs")) Ht))).
Defined.

(** ** The outcome of the markup export (lines 150-161) *)

(** X12.  The html export is a success response if and only if both the
    clipboard write and the URI encoding of the document succeed; the
    artifact is then the data URL of the encoded document, the same document
    that went to the clipboard.  When the write succeeds and the encoding
    throws, the response is the failure carrying the encoder's message. *)
Theorem html_export_outcome
  (host : Host) (dashboard : DashboardConfig.t) (canvas : Canvas) :
  let html := generateHTMLCode host dashboard in
  (isSuccess (exportDashboard host dashboard "html" canvas) <->
   (exists u, clipboard_writeText host html = Ok u) /\
   (exists encoded, encodeURIComponent host html = Ok encoded)) /\
  (forall u encoded,
     clipboard_writeText host html = Ok u ->
     encodeURIComponent host html = Ok encoded ->
     exportDashboard host dashboard "html" canvas
     = Ok (succeeded ("data:text/html;charset=utf-8," ++ encoded) "dashboard.html")) /\
  (forall u e,
     clipboard_writeText host html = Ok u ->
     encodeURIComponent host html = Throw e ->
     exportDashboard host dashboard "html" canvas
     = Ok (failed ("Export failed: " ++ message e))).
Proof.
  cbv zeta. unfold isSuccess, exportDashboard, dispatch.
  cbn [String.eqb Ascii.eqb Bool.eqb]. unfold exportAsHTML. cbv zeta.
  destruct (clipboard_writeText host (generateHTMLCode host dashboard))
    as [u0 | e0 | v0]; cbn [bind try_catch readMessage throw];
    [ destruct (encodeURIComponent host (generateHTMLCode host dashboard))
        as [enc | e1 | v1]; cbn [bind try_catch readMessage throw] | | ].
  - split; [ split; eauto | ]. split.
    + intros u encoded _ [= <-]. reflexivity.
    + intros u e _ H. discriminate H.
  - split; [ split | split ].
    + intros (url & name & H). discriminate H.
    + intros [_ [encoded H]]. discriminate H.
    + intros u encoded _ H. discriminate H.
    + intros u e _ [= <-]. reflexivity.
  - split; [ split | split ].
    + intros (url & name & H). destruct v1; cbn [throw bind] in H; discriminate H.
    + intros [_ [encoded H]]. discriminate H.
    + intros u encoded _ H. discriminate H.
    + intros u e _ H. discriminate H.
  - split; [ split | split ].
    + intros (url & name & H). discriminate H.
    + intros [[u H] _]. discriminate H.
    + intros u encoded H. discriminate H.
    + intros u e H. discriminate H.
  - split; [ split | split ].
    + intros (url & name & H). destruct v0; cbn [throw bind] in H; discriminate H.
    + intros [[u H] _]. discriminate H.
    + intros u encoded H. discriminate H.
    + intros u e H. discriminate H.
Qed.

(** ** What each export reads (lines 17-30) *)

(** X13.  The image exports read nothing but the rendering surface; the pdf
    export reads, besides the surface, only the title, and only through its
    stem; the pptx and html exports never read the rendering surface. *)
Theorem export_inputs
  (host host' : Host) (dashboard dashboard' : DashboardConfig.t)
  (canvas canvas' : Canvas) :
  exportDashboard host dashboard "jpeg" canvas
  = exportDashboard host' dashboard' "jpeg" canvas /\
  exportDashboard host dashboard "png" canvas
  = exportDashboard host' dashboard' "png" canvas /\
  (fileStem (DashboardConfig.title dashboard)
   = fileStem (DashboardConfig.title dashboard') ->
   exportDashboard host dashboard "pdf" canvas
   = exportDashboard host dashboard' "pdf" canvas) /\
  exportDashboard host dashboard "pptx" canvas
  = exportDashboard host dashboard "pptx" canvas' /\
  exportDashboard host dashboard "html" canvas
  = exportDashboard host dashboard "html" canvas'.
Proof.
  repeat split.
  intros H. unfold exportDashboard, dispatch.
  cbn [String.eqb Ascii.eqb Bool.eqb]. unfold exportAsPDF. rewrite H. reflexivity.
Qed.

(** ** The blocks of the generated document (lines 163-226) *)

Lemma occurrences_plain (u rest : string) :
  noMarkup u = true ->
  occurrences blockMarker (u ++ rest) = occurrences blockMarker rest.
Proof.
  induction u as [| c u IH]; [ reflexivity | ].
  simpl noMarkup. intros H. apply andb_true_iff in H as [Hc Hu].
  apply negb_true_iff in Hc.
  change (String c u ++ rest) with (String c (u ++ rest)).
  cbn [occurrences]. rewrite (IH Hu).
  change blockMarker with (String "<" ("div class=" ++ quoted "component")).
  cbn [startsWith]. rewrite Ascii.eqb_sym, Hc. reflexivity.
Qed.

(** Walks the count through literal text, plain strings and appends. *)
Ltac occ_steps :=
  repeat first
    [ rewrite occurrences_plain by assumption
    | rewrite append_assoc
    | progress cbn [occurrences startsWith append String.concat unlines join LF dquote quoted blockMarker ascii_of_nat ascii_of_pos ascii_of_N Ascii.shift Ascii.zero Ascii.one Pos.of_succ_nat Pos.succ N.of_nat Ascii.eqb Bool.eqb andb Nat.add] ].


Lemma occurrences_componentHTML host (component : Component.t) (rest : string) :
  (forall q, noMarkup (NumberToString host q) = true) ->
  plainComponent host component = true ->
  occurrences blockMarker (componentHTML host component ++ rest)
  = S (occurrences blockMarker rest).
Proof.
  intros Hnum Hc. unfold plainComponent in Hc.
  apply andb_true_iff in Hc as [Hc Hunit].
  apply andb_true_iff in Hc as [Hc Hvalue].
  apply andb_true_iff in Hc as [Hid Htitle].
  pose proof (Hnum (leftPercent component)) as Hl.
  pose proof (Hnum (topPercent component)) as Ht.
  pose proof (Hnum (widthPercent component)) as Hw.
  pose proof (Hnum (heightPercent component)) as Hh.
  unfold componentHTML, kpiText.
  destruct (Component.title component) as [title |];
    [ cbn [orEmpty] in Htitle; destruct (truthy (Some title)) | ];
    destruct (Component.type component =? "kpi");
    occ_steps; reflexivity.
Qed.

Lemma occurrences_join host (components : list Component.t) (rest : string) :
  (forall q, noMarkup (NumberToString host q) = true) ->
  forallb (plainComponent host) components = true ->
  occurrences blockMarker (join (map (componentHTML host) components) ++ rest)
  = (List.length components + occurrences blockMarker rest)%nat.
Proof.
  intros Hnum. induction components as [| c l IH]; intros H.
  - reflexivity.
  - simpl in H. apply andb_true_iff in H as [Hc Hl].
    cbn [map List.length]. rewrite join_cons, append_assoc.
    rewrite (occurrences_componentHTML _ _ _ Hnum Hc), (IH Hl). reflexivity.
Qed.

(** X14.  When no string copied into the document (title, theme values,
    component ids, titles, values and units, and the numbers as the host
    prints them) holds a less-than sign, the generated document contains
    exactly one positioned block per component: the opening of a block
    occurs as many times as the dashboard has components. *)
Theorem markup_block_count (host : Host) (dashboard : DashboardConfig.t) :
  (forall q, noMarkup (NumberToString host q) = true) ->
  plainDashboard host dashboard = true ->
  occurrences blockMarker (generateHTMLCode host dashboard)
  = List.length (DashboardConfig.components dashboard).
Proof.
  intros Hnum Hd. unfold plainDashboard in Hd. cbv zeta in Hd.
  apply andb_true_iff in Hd as [Hd Hcs].
  apply andb_true_iff in Hd as [Hd Hprimary].
  apply andb_true_iff in Hd as [Hd Htext].
  apply andb_true_iff in Hd as [Hd Hbg].
  apply andb_true_iff in Hd as [Htitle Hfont].
  unfold generateHTMLCode. cbv zeta.
  repeat first
    [ rewrite occurrences_plain by assumption
    | rewrite (occurrences_join _ _ _ Hnum Hcs)
    | rewrite append_assoc
    | progress cbn [occurrences startsWith append String.concat unlines LF dquote quoted blockMarker ascii_of_nat ascii_of_pos ascii_of_N Ascii.shift Ascii.zero Ascii.one Pos.of_succ_nat Pos.succ N.of_nat Ascii.eqb Bool.eqb andb Nat.add] ].
  lia.
Qed.

Lemma noMarkup_app (s1 s2 : string) :
  noMarkup (s1 ++ s2) = noMarkup s1 && noMarkup s2.
Proof.
  induction s1 as [| c s1 IH]; simpl; [ reflexivity | ].
  rewrite IH, andb_assoc. reflexivity.
Qed.

(** The example host prints numbers with digits, a sign and a point only. *)
Lemma noMarkup_string_of_uint (d : Decimal.uint) :
  noMarkup (NilEmpty.string_of_uint d) = true.
Proof. induction d; simpl; auto. Qed.

Lemma noMarkup_string_of_int (i : Decimal.int) :
  noMarkup (NilZero.string_of_int i) = true.
Proof.
  destruct i as [d | d]; cbn [NilZero.string_of_int NilZero.string_of_uint];
    destruct d; cbn [noMarkup Ascii.eqb Bool.eqb negb andb];
    try reflexivity;
    try apply (noMarkup_string_of_uint (_ d)).
Qed.

Lemma noMarkup_fractionDigits (fuel : nat) (r d : Z) :
  noMarkup (Demo.fractionDigits fuel r d) = true.
Proof.
  revert r. induction fuel as [| fuel IH]; intros r; [ reflexivity | ].
  cbn [Demo.fractionDigits].
  destruct (r =? 0)%Z; [ reflexivity | ].
  rewrite noMarkup_app, noMarkup_string_of_int, IH. reflexivity.
Qed.

Lemma noMarkup_decimalString (q : Q) :
  noMarkup (Demo.decimalString q) = true.
Proof.
  unfold Demo.decimalString. cbv zeta.
  rewrite !noMarkup_app, noMarkup_string_of_int.
  destruct (Qnum q <? 0)%Z; destruct (Z.abs (Qnum q) mod Z.pos (Qden q) =? 0)%Z;
    rewrite ?noMarkup_app, ?noMarkup_fractionDigits; reflexivity.
Qed.

Lemma markup_block_count_witness :
  occurrences blockMarker
    (generateHTMLCode Demo.host
       (Demo.dashboard "Q1 Report" [Demo.revenue; Demo.chartAB; Demo.table]))
  = 3%nat.
Proof.
  assert (Hplain : plainDashboard Demo.host
                     (Demo.dashboard "Q1 Report"
                        [Demo.revenue; Demo.chartAB; Demo.table]) = true)
    by (vm_compute; reflexivity).
  exact (markup_block_count Demo.host
           (Demo.dashboard "Q1 Report" [Demo.revenue; Demo.chartAB; Demo.table])
           (fun n => noMarkup_decimalString (exact n)) Hplain).
Defined.

(** Without the condition the count can be off: a title is copied as it
    stands, so a component whose title is the opening of a block counts
    twice. *)
Example markup_block_count_unescaped :
  occurrences blockMarker
    (generateHTMLCode Demo.host
       (Demo.dashboard "Q1 Report"
          [Component.make "kpi-1" "kpi" (Some (blockMarker ++ ">"))
             (Position.make 40 45) (Size.make 200 90)
             (ComponentData.make None (Some (VNumber 1000)) (Some "USD"))]))
  = 2%nat.
Proof. vm_compute. reflexivity. Qed.

(** ** The outcome of the image and pdf exports (lines 39-84) *)

(** X15.  An image export reads the rendering surface once, in the requested
    format with quality 0.9 and multiplier 2: it is a success response if and
    only if that read succeeds, the artifact is then the data URL the surface
    returned, and a failed read gives the failure response with the read's
    message. *)
Theorem image_export_outcome
  (host : Host) (dashboard : DashboardConfig.t) (canvas : Canvas) (format : string) :
  format = "jpeg" \/ format = "png" ->
  let read := toDataURL canvas (DataURLOptions format 0.9 2) in
  (isSuccess (exportDashboard host dashboard format canvas)
   <-> exists dataURL, read = Ok dataURL) /\
  (forall dataURL, read = Ok dataURL ->
     exportDashboard host dashboard format canvas
     = Ok (succeeded dataURL ("dashboard." ++ format))) /\
  (forall e, read = Throw e ->
     exportDashboard host dashboard format canvas
     = Ok (failed ("Export failed: " ++ message e))).
Proof.
  intros [-> | ->]; cbv zeta; unfold isSuccess, exportDashboard, dispatch;
    cbn [String.eqb Ascii.eqb Bool.eqb]; unfold exportAsImage;
    (destruct (toDataURL canvas _) as [u | e0 | [e1 | r1]];
     cbn [bind try_catch readMessage throw]);
    (split; [ split | split ]);
    try (intros (url & name & H); discriminate H);
    try (intros [url H]; discriminate H);
    try (intros x H; discriminate H);
    try (intros x [= <-]; reflexivity);
    eauto.
Qed.

Lemma image_export_outcome_witness :
  exportDashboard Demo.host (Demo.dashboard "Q1 Report" [Demo.revenue]) "png"
    Demo.canvas
  = Ok (succeeded "data:image/png;base64," "dashboard.png").
Proof.
  exact (proj1 (proj2 (image_export_outcome Demo.host
                         (Demo.dashboard "Q1 Report" [Demo.revenue]) Demo.canvas
                         "png" (or_intror eq_refl)))
           "data:image/png;base64," eq_refl).
Defined.

(** X16.  The pdf export is a success response if and only if five calls
    succeed in turn: the read of the surface as image/jpeg at quality 0.9,
    the construction of the landscape a4 document, the placing of the image
    in it, the output of the document as a blob, and the object URL of that
    blob; the response then carries that URL and the stem of the title with
    .pdf.  The first of the five that throws a value with a message decides
    the failure message, and the calls after it do not matter. *)
Theorem pdf_export_outcome
  (host : Host) (dashboard : DashboardConfig.t) (canvas : Canvas) :
  let read := toDataURL canvas (DataURLType "image/jpeg" 0.9) in
  let create := jsPDF_new host "landscape" "mm" "a4" in
  let place imgData :=
    jsPDF_addImage host (JsPDF.new "landscape" "mm" "a4") (pdfImage imgData) in
  let output imgData := jsPDF_output host (pdfDocument imgData) "blob" in
  let export := exportDashboard host dashboard "pdf" canvas in
  (isSuccess export <->
   exists imgData blob url,
     read = Ok imgData /\ create = Ok tt /\ place imgData = Ok tt /\
     output imgData = Ok blob /\ createObjectURL host blob = Ok url) /\
  (forall imgData blob url,
     read = Ok imgData -> create = Ok tt -> place imgData = Ok tt ->
     output imgData = Ok blob -> createObjectURL host blob = Ok url ->
     export
     = Ok (succeeded url (fileStem (DashboardConfig.title dashboard) ++ ".pdf"))) /\
  (forall e, read = Throw e ->
     export = Ok (failed ("Export failed: " ++ message e))) /\
  (forall imgData e,
     read = Ok imgData -> create = Throw e ->
     export = Ok (failed ("Export failed: " ++ message e))) /\
  (forall imgData e,
     read = Ok imgData -> create = Ok tt -> place imgData = Throw e ->
     export = Ok (failed ("Export failed: " ++ message e))) /\
  (forall imgData e,
     read = Ok imgData -> create = Ok tt -> place imgData = Ok tt ->
     output imgData = Throw e ->
     export = Ok (failed ("Export failed: " ++ message e))) /\
  (forall imgData blob e,
     read = Ok imgData -> create = Ok tt -> place imgData = Ok tt ->
     output imgData = Ok blob -> createObjectURL host blob = Throw e ->
     export = Ok (failed ("Export failed: " ++ message e))).
Proof.
  cbv zeta. unfold isSuccess.
  rewrite (exportDashboard_pdf host dashboard canvas).
  unfold exportAsPDF. cbv zeta.
  destruct (toDataURL canvas _) as [img | e0 | [ee0 | r0]] eqn:Hread;
    cbn [bind try_catch readMessage throw].
  1: destruct (jsPDF_new host "landscape" "mm" "a4")
       as [[] | e1 | [ee1 | r1]] eqn:Hnew;
     cbn [bind try_catch readMessage throw].
  1: destruct (jsPDF_addImage host (JsPDF.new "landscape" "mm" "a4")
                 (pdfImage img)) as [[] | e2 | [ee2 | r2]] eqn:Hplace;
     cbn [bind try_catch readMessage throw].
  1: destruct (jsPDF_output host (pdfDocument img) "blob")
       as [blob | e3 | [ee3 | r3]] eqn:Hout;
     cbn [bind try_catch readMessage throw].
  1: destruct (createObjectURL host blob) as [url | e4 | [ee4 | r4]] eqn:Hurl;
     cbn [bind try_catch readMessage throw].
  all: repeat match goal with |- _ /\ _ => split | |- _ <-> _ => split end.
  all: try (intros (u & n & H); discriminate H).
  all: try (intros (i & b & u & Hi & Hc & Hp & Ho & Hu); congruence).
  all: try (intros _; exists img, blob, url; repeat split; assumption).
  all: try (intros _; do 2 eexists; reflexivity).
  all: try (intros; congruence).
Qed.

Lemma pdf_export_outcome_witness :
  exportDashboard Demo.imageRejected (Demo.dashboard "Q1 Report" [Demo.revenue])
    "pdf" Demo.canvas
  = Ok (failed "Export failed: Invalid image data").
Proof.
  exact (proj1 (proj2 (proj2 (proj2 (proj2
           (pdf_export_outcome Demo.imageRejected
              (Demo.dashboard "Q1 Report" [Demo.revenue]) Demo.canvas)))))
           "data:image/jpeg;base64," (Error "Invalid image data")
           eq_refl eq_refl eq_refl).
Defined.
